(** * MQTT text to G-code bridge for GRBL: the glyph compiler and the
      device driver of [mqtt_to_grbl.py], embedded and verified.

    Python [float] values are IEEE 754 binary64 numbers; they are modelled
    by the Standard Library's [spec_float] with precision 53 and maximal
    exponent 1024, so sums, differences and comparisons below are the
    ones the interpreter performs.  A Python [str] is modelled by
    [string]; every [ascii] stands for one character of the text. *)

From Stdlib Require Import ZArith List Bool Ascii String Lia.
From Stdlib Require Import SpecFloat.
From stdpp Require Import gmap strings.

Import ListNotations.
Local Open Scope string_scope.
Local Open Scope Z_scope.

(* ------------------------------------------------------------------ *)
(** ** Binary64 numbers *)

Module F64.

Definition prec : Z := 53.
Definition emax : Z := 1024.

Definition float : Type := spec_float.

Definition add : float -> float -> float := SFadd prec emax.
Definition sub : float -> float -> float := SFsub prec emax.
Definition ltb : float -> float -> bool := SFltb.

(** The float nearest to an integer ([float(n)] in Python, for the
    integers that occur as literals in the source). *)
Definition of_Z (n : Z) : float := binary_normalize prec emax n 0 false.

Definition zero : float := S754_zero false.
Definition inf : float := S754_infinity false.

Definition is_nan (x : float) : bool :=
  match x with S754_nan => true | _ => false end.

End F64.

Abbreviation float := F64.float.

(* ------------------------------------------------------------------ *)
(** ** Strings of the standard library of Python *)

Definition newline : ascii := "010"%char.

(** The characters [str.strip] removes, among the characters below 256:
    tab to carriage return, the separators 28 to 31, the space, NEL and
    the no-break space. *)
Definition is_space (c : ascii) : bool :=
  let n := N_of_ascii c in
  ((9 <=? n) && (n <=? 13) || (28 <=? n) && (n <=? 32)
   || (n =? 133) || (n =? 160))%N.

Fixpoint lstrip (s : string) : string :=
  match s with
  | EmptyString => EmptyString
  | String c r => if is_space c then lstrip r else s
  end.

Fixpoint rstrip (s : string) : string :=
  match s with
  | EmptyString => EmptyString
  | String c r =>
      match rstrip r with
      | EmptyString => if is_space c then EmptyString else String c EmptyString
      | r' => String c r'
      end
  end.

Definition strip (s : string) : string := rstrip (lstrip s).

(** [s.split(sep)] for a one-character separator: the pieces between
    the separators, empty pieces included; never an empty list. *)
Fixpoint split_on (sep : ascii) (s : string) : list string :=
  match s with
  | EmptyString => [""]
  | String c r =>
      if Ascii.eqb c sep then "" :: split_on sep r
      else match split_on sep r with
           | h :: t => String c h :: t
           | [] => [String c ""]
           end
  end.

(** [text.split('\n')] *)
Definition split_lines (s : string) : list string := split_on newline s.

(** [s.endswith('\n')] *)
Fixpoint endswith_newline (s : string) : bool :=
  match s with
  | EmptyString => false
  | String c EmptyString => Ascii.eqb c newline
  | String _ r => endswith_newline r
  end.

(** [s[1:]] *)
Definition drop_first (s : string) : string :=
  match s with EmptyString => EmptyString | String _ r => r end.

(* ------------------------------------------------------------------ *)
(** ** The ['%.2f'] conversion

    The conversion prints the decimal with two fractional digits that is
    nearest to the exact value of the float, ties going to the even
    last digit; the sign is printed from the sign bit, so a small
    negative number prints as [-0.00]. *)

(** [hundredths m e] is the integer nearest to [m * 2^e * 100]. *)
Definition hundredths (m : positive) (e : Z) : Z :=
  if 0 <=? e then Z.pos m * 2 ^ e * 100
  else
    let d := 2 ^ (- e) in
    let n := Z.pos m * 100 in
    let q := n / d in
    let r := n mod d in
    match 2 * r ?= d with
    | Lt => q
    | Gt => q + 1
    | Eq => if Z.even q then q else q + 1
    end.

Definition digit_of (d : Z) : ascii := ascii_of_N (48 + Z.to_N d).

(** The decimal digits of [n], for [0 <= n < 10 ^ fuel]. *)
Fixpoint decimal_digits (fuel : nat) (n : Z) : string :=
  match fuel with
  | O => ""
  | S f =>
      (if n <? 10 then "" else decimal_digits f (n / 10)) ++
      String (digit_of (n mod 10)) ""
  end.

(** ['%d' % n] for [0 <= n]; [n] has at most [log2 n + 1] digits. *)
Definition decimal_of_Z (n : Z) : string :=
  decimal_digits (S (Z.to_nat (Z.log2 n))) n.

(** [fixed2 n] prints the non-negative count of hundredths [n] as
    [<integer part>.<two digits>]. *)
Definition fixed2 (n : Z) : string :=
  decimal_of_Z (n / 100) ++
  String "." (String (digit_of (n mod 100 / 10))
             (String (digit_of (n mod 10)) "")).

Definition sign_text (s : bool) : string := if s then "-" else "".

Definition fmt2 (v : float) : string :=
  match v with
  | S754_nan => "nan"
  | S754_infinity s => sign_text s ++ "inf"
  | S754_zero s => sign_text s ++ "0.00"
  | S754_finite s m e => sign_text s ++ fixed2 (hundredths m e)
  end.

(* ------------------------------------------------------------------ *)
(** ** [float(str)]

    The conversion accepts, between white space, a signed decimal
    literal (digits with an optional point and an optional exponent,
    underscores allowed between digits) or [inf], [infinity] or [nan] in
    any case, and returns the binary64 number nearest to the literal's
    value, ties to even; any other text raises [ValueError] ([None]). *)

Definition digit_value (c : ascii) : option Z :=
  let n := N_of_ascii c in
  if ((48 <=? n) && (n <=? 57))%N then Some (Z.of_N n - 48) else None.

Definition is_digit (c : ascii) : bool :=
  match digit_value c with Some _ => true | None => false end.

(** The white space [float] skips at both ends. *)
Definition is_float_space (c : ascii) : bool :=
  let n := N_of_ascii c in
  ((9 <=? n) && (n <=? 13) || (n =? 32) || (n =? 133) || (n =? 160))%N.

Fixpoint lstrip_float (s : string) : string :=
  match s with
  | EmptyString => EmptyString
  | String c r => if is_float_space c then lstrip_float r else s
  end.

Fixpoint rstrip_float (s : string) : string :=
  match s with
  | EmptyString => EmptyString
  | String c r =>
      match rstrip_float r with
      | EmptyString => if is_float_space c then EmptyString else String c EmptyString
      | r' => String c r'
      end
  end.

(** An underscore must stand between two digits; the underscores are
    dropped.  [prev] is the character before [s]. *)
Fixpoint drop_underscores (prev : option ascii) (s : string) : option string :=
  let prev_is p := match prev with Some c => p c | None => false end in
  match s with
  | EmptyString => if prev_is (Ascii.eqb "_") then None else Some EmptyString
  | String c r =>
      if Ascii.eqb c "_" then
        if prev_is is_digit then drop_underscores (Some c) r else None
      else if prev_is (Ascii.eqb "_") && negb (is_digit c) then None
      else option_map (String c) (drop_underscores (Some c) r)
  end.

(** The longest prefix of digits: its value on top of [acc], the number
    of digits on top of [n], and the rest of the text. *)
Fixpoint scan_digits (s : string) (acc n : Z) : Z * Z * string :=
  match s with
  | EmptyString => (acc, n, EmptyString)
  | String c r =>
      match digit_value c with
      | Some d => scan_digits r (10 * acc + d) (n + 1)
      | None => (acc, n, s)
      end
  end.

Definition scan_sign (s : string) : bool * string :=
  match s with
  | String "-" r => (true, r)
  | String "+" r => (false, r)
  | _ => (false, s)
  end.

(** An unsigned decimal literal [digits.digits e exponent] as the pair
    [(d, e)] of value [d * 10^e]. *)
Definition parse_decimal (s : string) : option (Z * Z) :=
  let '(ip, ni, s1) := scan_digits s 0 0 in
  let '(m, nf, s2) :=
    match s1 with
    | String "." r => scan_digits r ip 0
    | _ => (ip, 0, s1)
    end in
  if ni + nf =? 0 then None
  else
    match s2 with
    | EmptyString => Some (m, - nf)
    | String c r =>
        if Ascii.eqb c "e" || Ascii.eqb c "E" then
          let '(eneg, r1) := scan_sign r in
          let '(ev, ne, r2) := scan_digits r1 0 0 in
          if ne =? 0 then None
          else match r2 with
               | EmptyString => Some (m, (if eneg then - ev else ev) - nf)
               | String _ _ => None
               end
        else None
    end.

Definition to_lower (c : ascii) : ascii :=
  let n := N_of_ascii c in
  if ((65 <=? n) && (n <=? 90))%N then ascii_of_N (n + 32) else c.

Fixpoint lower (s : string) : string :=
  match s with
  | EmptyString => EmptyString
  | String c r => String (to_lower c) (lower r)
  end.

Definition parse_inf_nan (neg : bool) (s : string) : option float :=
  let l := lower s in
  if String.eqb l "inf" || String.eqb l "infinity" then Some (S754_infinity neg)
  else if String.eqb l "nan" then Some S754_nan
  else None.

(** The binary64 number nearest to [(-1)^neg * d * 10^e], for [0 <= d]:
    an integer is rounded by [binary_normalize], a quotient by the
    division of the standard library, which rounds the exact quotient
    of its two mantissas once. *)
Definition float_of_decimal (neg : bool) (d e : Z) : float :=
  match d with
  | Z.pos p =>
      if 0 <=? e then
        binary_normalize F64.prec F64.emax
          ((if neg then Z.neg p else Z.pos p) * 10 ^ e) 0 neg
      else
        SFdiv F64.prec F64.emax
          (S754_finite neg p 0)
          (S754_finite false (Z.to_pos (10 ^ (- e))) 0)
  | _ => S754_zero neg
  end.

Definition py_float (s : string) : option float :=
  match drop_underscores None s with
  | None => None
  | Some s1 =>
      let s2 := rstrip_float (lstrip_float s1) in
      let '(neg, body) := scan_sign s2 in
      match parse_decimal body with
      | Some (d, e) => Some (float_of_decimal neg d e)
      | None => parse_inf_nan neg body
      end
  end.

(* ------------------------------------------------------------------ *)
(** ** Instructions and letters *)

(** [Instr.Type]: [move = 0,] and [write = 1,] (one-element tuples, whose
    first component [__repr__] prints). *)
Inductive Instr_Type : Type := move | write.

Definition Instr_Type_value (t : Instr_Type) : Z :=
  match t with move => 0 | write => 1 end.

Record Instr : Type := mkInstr {
  instr_type : Instr_Type;
  instr_x : float;
  instr_y : float
}.

Record Letter : Type := mkLetter {
  instructions : list Instr;
  width : float
}.

(** [Instr.translated] and [Letter.translated]. *)
Definition Instr_translated (i : Instr) (dx dy : float) : Instr :=
  mkInstr (instr_type i) (F64.add (instr_x i) dx) (F64.add (instr_y i) dy).

Definition Letter_translated (l : Letter) (dx dy : float) : Letter :=
  mkLetter (map (fun i => Instr_translated i dx dy) (instructions l)) (width l).

(** [Instr.__repr__]: ["G%d X%.2f Y%.2f"]. *)
Definition Instr_repr (i : Instr) : string :=
  "G" ++ decimal_of_Z (Instr_Type_value (instr_type i)) ++
  " X" ++ fmt2 (instr_x i) ++ " Y" ++ fmt2 (instr_y i).

(** [Instr(line)] for a [str]; [None] stands for the [ValueError] that
    every rejected line raises. *)
Definition Instr_of_line (arg : string) : option Instr :=
  let line := strip arg in
  if String.eqb line "" || String.prefix "(" line || String.prefix "%" line
  then None
  else
    let attributes := split_on " " line in
    match attributes with
    | a0 :: a1 :: a2 :: _ =>
        if (2 <=? String.length a0)%nat &&
           (match String.get 0 a0 with Some c => Ascii.eqb c "G" | None => false end)
        then
          match String.get 1 a0 with
          | Some c1 =>
              match (if Ascii.eqb c1 "0" then Some move
                     else if Ascii.eqb c1 "1" then Some write
                     else None) with
              | Some t =>
                  if (1 <? String.length a1)%nat &&
                     (match String.get 0 a1 with
                      | Some c => Ascii.eqb c "X" | None => false end) &&
                     (1 <? String.length a2)%nat &&
                     (match String.get 0 a2 with
                      | Some c => Ascii.eqb c "Y" | None => false end)
                  then
                    match py_float (drop_first a1), py_float (drop_first a2) with
                    | Some x, Some y => Some (mkInstr t x y)
                    | _, _ => None
                    end
                  else None
              | None => None
              end
          | None => None
          end
        else None
    | _ => None
    end.

(** [max(l)] and [min(l)] of a non-empty list: the first element is
    replaced by a later one that compares greater (less). *)
Definition py_max (first : float) (rest : list float) : float :=
  fold_left (fun m i => if F64.ltb m i then i else m) rest first.

Definition py_min (first : float) (rest : list float) : float :=
  fold_left (fun m i => if F64.ltb i m then i else m) rest first.

(** The body of [for line in args[0].split('\n')]. *)
Definition letter_line (instructions : list Instr) (line : string) : list Instr :=
  let line := strip line in
  if negb (String.eqb line "") then
    match Instr_of_line line with
    | Some i => instructions ++ [i]
    | None => instructions
    end
  else instructions.

(** [Letter(data)] for a [str]. *)
Definition Letter_of_string (data : string) : Letter :=
  let instructions := fold_left letter_line (split_lines data) [] in
  let pointsOnX := map instr_x instructions in
  mkLetter instructions
    match pointsOnX with
    | [] => F64.zero
    | first :: rest => F64.sub (py_max first rest) (py_min first rest)
    end.

(* ------------------------------------------------------------------ *)
(** ** [textToGcode] *)

(** The local variables of [textToGcode]. *)
Record cstate : Type := mkState {
  output : list string;
  current_x : float;
  current_y : float;
  first_line : bool;
  pen_is_down : bool
}.

Definition init_state : cstate :=
  mkState [] F64.zero F64.zero true false.

(** [output.append(cmd)] *)
Definition emit (cmd : string) (st : cstate) : cstate :=
  mkState (output st ++ [cmd]) (current_x st) (current_y st)
          (first_line st) (pen_is_down st).

Definition set_pen (b : bool) (st : cstate) : cstate :=
  mkState (output st) (current_x st) (current_y st) (first_line st) b.

Definition set_x (v : float) (st : cstate) : cstate :=
  mkState (output st) v (current_y st) (first_line st) (pen_is_down st).

Definition set_y (v : float) (st : cstate) : cstate :=
  mkState (output st) (current_x st) v (first_line st) (pen_is_down st).

Definition set_first_line (b : bool) (st : cstate) : cstate :=
  mkState (output st) (current_x st) (current_y st) b (pen_is_down st).

(** The commands of the motion program. *)
Definition M03 : string := "M03 S150".
Definition M04 : string := "M04".
Definition M05 : string := "M05".
Definition M05_F : string := "M05 F1500.0".

Definition xy_text (x y : float) : string :=
  " X" ++ fmt2 x ++ " Y" ++ fmt2 y.

Definition G0_line (x y : float) : string := "G0 F1500" ++ xy_text x y.
Definition G0_move (x y : float) : string := "G0 F1500.0" ++ xy_text x y.
Definition G1_draw (x y : float) : string := "G1 F1500.0" ++ xy_text x y.
Definition G0_advance (x y : float) : string := "G0 F1000.0" ++ xy_text x y.

(** [if pen_is_down: output.append("M05"); pen_is_down = False], the
    guard of the line-break branch and of the empty-letter branch. *)
Definition pen_up_if_down (st : cstate) : cstate :=
  if pen_is_down st then set_pen false (emit M05 st) else st.

(** The body of [if not first_line: ... else: first_line = False]. *)
Definition start_line (line_spacing : float) (st : cstate) : cstate :=
  if first_line st then set_first_line false st
  else
    let st1 := set_y (F64.sub (current_y st) line_spacing) st in
    let st2 := set_x F64.zero st1 in
    let st3 := pen_up_if_down st2 in
    let st4 := emit (G0_line (current_x st3) (current_y st3)) st3 in
    emit M05 (emit M04 st4).

(** The body of [for instr in letter_data.instructions]. *)
Definition instr_step (st : cstate) (i : Instr) : cstate :=
  let x := F64.add (current_x st) (instr_x i) in
  let y := F64.add (current_y st) (instr_y i) in
  match instr_type i with
  | move =>
      let st1 := if pen_is_down st then set_pen false (emit M05_F st) else st in
      emit (G0_move x y) st1
  | write =>
      let st1 := if negb (pen_is_down st) then set_pen true (emit M03 st) else st in
      emit (G1_draw x y) st1
  end.

(** The body of [if char in letters:] for the letter found. *)
Definition letter_step (padding : float) (st : cstate) (ld : Letter) : cstate :=
  match instructions ld with
  | [] =>
      pen_up_if_down
        (set_x (F64.add (current_x st) (F64.add (width ld) padding)) st)
  | _ :: _ =>
      let st1 := set_pen false st in
      let st2 := fold_left instr_step (instructions ld) st1 in
      let st3 := if pen_is_down st2 then set_pen false (emit M05_F st2) else st2 in
      let st4 := set_x (F64.add (current_x st3) (F64.add (width ld) padding)) st3 in
      emit (G0_advance (current_x st4) (current_y st4)) st4
  end.

(** The body of [for char in line_text]; a character that is not a key
    of the table only prints a warning. *)
Definition char_step (letters : gmap string Letter) (padding : float)
    (st : cstate) (char : ascii) : cstate :=
  match letters !! String char "" with
  | Some ld => letter_step padding st ld
  | None => st
  end.

(** The body of [for line_text in lines]. *)
Definition line_step (letters : gmap string Letter)
    (line_spacing padding : float) (st : cstate) (line_text : string) : cstate :=
  fold_left (char_step letters padding) (list_ascii_of_string line_text)
            (start_line line_spacing st).

Definition compile_state (text : string) (letters : gmap string Letter)
    (line_spacing padding : float) : cstate :=
  fold_left (line_step letters line_spacing padding) (split_lines text) init_state.

Definition textToGcode (text : string) (letters : gmap string Letter)
    (line_length line_spacing padding : float) : list string :=
  output (compile_state text letters line_spacing padding).

(* ------------------------------------------------------------------ *)
(** ** The serial port and the GRBL driver

    The driver talks to the world through [serial.Serial], [ser.write],
    [ser.readline], [time.time] and [print].  The world is replayed from
    a script: for every command written to an open port, one [exchange]
    says whether the write raises, what the clock shows when the wait
    starts, and what each pass of the wait loop reads and then sees on
    the clock.  A run that needs more of the script than there is has no
    result ([None]). *)

(** One pass of [while True]: [ser.readline()] returns [line] (empty
    when the port's read timeout expires) and a later [time.time()]
    returns [now]; or [ser.readline()] raises. *)
Inductive poll : Type :=
  | Poll (line : list Byte.byte) (now : float)
  | PollRaise (e : string).

Record exchange : Type := mkExchange {
  write_raise : option string;   (* [str(e)] when write or flush raises *)
  start_time : float;            (* [start_time = time.time()] *)
  polls : list poll
}.

(** What [serial.Serial(...)] does. *)
Inductive open_outcome : Type :=
  | OpenOk
  | OpenSerialException
  | OpenException.

(** What the driver did to the world. *)
Inductive event : Type :=
  | Opened                       (* a port was opened *)
  | Closed                       (* [ser.close()] *)
  | Wire (command : string)      (* the command line was written to the port *)
  | WireRaise (command : string) (* writing the command line raised *)
  | Console (command : string).  (* [print(command)] in place of a write *)

Record world : Type := mkWorld {
  ser : option bool;             (* [None], or a port with its [is_open] *)
  log : list event;
  opens : list open_outcome;     (* the coming [serial.Serial(...)] calls *)
  pending : list exchange        (* the coming exchanges *)
}.

(** [ser and ser.is_open] *)
Definition ser_is_open (w : world) : bool :=
  match ser w with Some b => b | None => false end.

(** The command an event delivers, to the port or to the console. *)
Definition event_command (e : event) : option string :=
  match e with
  | Wire c | WireRaise c | Console c => Some c
  | Opened | Closed => None
  end.

Definition commands (l : list event) : list string := omap event_command l.

(** Programs over the world. *)
Definition IO (A : Type) : Type := world -> option (A * world).

Definition ret {A} (a : A) : IO A := fun w => Some (a, w).

Definition bind {A B} (m : IO A) (k : A -> IO B) : IO B :=
  fun w => match m w with Some (a, w') => k a w' | None => None end.

Notation "x <- m ;; k" := (bind m (fun x => k))
  (at level 90, m at next level, right associativity).
Notation "m ;;; k" := (bind m (fun _ => k))
  (at level 90, right associativity).

Definition record (e : event) : IO unit :=
  fun w => Some (tt, mkWorld (ser w) (log w ++ [e])%list (opens w) (pending w)).

Definition set_ser (s : option bool) : IO unit :=
  fun w => Some (tt, mkWorld s (log w) (opens w) (pending w)).

Definition next_exchange : IO exchange :=
  fun w => match pending w with
           | ex :: rest => Some (ex, mkWorld (ser w) (log w) (opens w) rest)
           | [] => None
           end.

Definition next_open : IO open_outcome :=
  fun w => match opens w with
           | o :: rest => Some (o, mkWorld (ser w) (log w) rest (pending w))
           | [] => None
           end.

Section Driver.

(** [bytes.decode('utf-8', errors='ignore')] and [bytes.decode('utf-8')];
    the codec is the interpreter's. *)
Variable decode_ignore : list Byte.byte -> string.
Variable decode_strict : list Byte.byte -> option string.

Definition is_empty_bytes (l : list Byte.byte) : bool :=
  match l with [] => true | _ :: _ => false end.

(** The wait loop of [send_gcode]. *)
Fixpoint await (timeout start : float) (response_buffer : list Byte.byte)
    (ps : list poll) : option (bool * string) :=
  match ps with
  | [] => None
  | PollRaise e :: _ => Some (false, e)
  | Poll line now :: rest =>
      let response_buffer' :=
        if is_empty_bytes line then response_buffer
        else (response_buffer ++ line)%list in
      let decoded_line := strip (decode_ignore line) in
      if negb (is_empty_bytes line) &&
         (String.eqb decoded_line "ok" || String.prefix "error:" decoded_line)
      then Some (String.eqb decoded_line "ok", decoded_line)
      else if F64.ltb timeout (F64.sub now start)
      then Some (false, strip (decode_ignore response_buffer'))
      else await timeout start response_buffer' rest
  end.

(** A line that ends the wait: not empty and, decoded and stripped, the
    token [ok] or a text that starts with [error:]. *)
Definition is_terminal (line : list Byte.byte) : bool :=
  let decoded_line := strip (decode_ignore line) in
  negb (is_empty_bytes line) &&
  (String.eqb decoded_line "ok" || String.prefix "error:" decoded_line).

Definition poll_bytes (p : poll) : list Byte.byte :=
  match p with Poll line _ => line | PollRaise _ => [] end.

(** A pass that reads no terminal line and ends within the timeout. *)
Definition waiting (timeout start : float) (p : poll) : Prop :=
  match p with
  | Poll line now =>
      is_terminal line = false /\ F64.ltb timeout (F64.sub now start) = false
  | PollRaise _ => False
  end.

(** The body of [try:] in [send_gcode], for one exchange. *)
Definition exchange_result (timeout : float) (ex : exchange) : option (bool * string) :=
  match write_raise ex with
  | Some e => Some (false, e)
  | None => await timeout (start_time ex) [] (polls ex)
  end.

(** What [ser.write((command + '\n').encode('utf-8'))] and [ser.flush()]
    do in an exchange. *)
Definition wire_event (command : string) (ex : exchange) : event :=
  match write_raise ex with
  | Some _ => WireRaise command
  | None => Wire command
  end.

Definition send_gcode (command : string) (timeout : float) : IO (bool * string) :=
  fun w =>
  if ser_is_open w then
    (ex <- next_exchange ;;
     record (wire_event command ex) ;;;
     fun w' => match exchange_result timeout ex with
               | Some r => Some (r, w')
               | None => None
               end) w
  else
    (record (Console command) ;;; ret (true, "Printed_to_console")) w.

Definition default_timeout : float := F64.of_Z 2.

Definition init_commands : list string :=
  [ "G21"; "G90"; "G17"; "G94"; "M05 S1000"; "M03"; "M05";
    "G10 P0 L20 X0"; "G10 P0 L20 Y0"; "G0 Z5"; "G0 X0 Y0"; "G0 Z0" ].

(** [for cmd in init_commands: ...], returning [all_init_success]. *)
Fixpoint init_loop (cmds : list string) : IO bool :=
  match cmds with
  | [] => ret true
  | cmd :: rest =>
      r <- send_gcode cmd (F64.of_Z 5) ;;
      if fst r then init_loop rest else ret false
  end.

(** [ser.close()] on the port [ser] names. *)
Definition close_port : IO unit := record Closed.

Definition init_grbl (SERIAL_PORT : option string) : IO bool :=
  match SERIAL_PORT with
  | None => ret true
  | Some _ =>
      o <- next_open ;;
      match o with
      | OpenOk =>
          set_ser (Some true) ;;; record Opened ;;;
          all_init_success <- init_loop init_commands ;;
          if all_init_success then ret true
          else close_port ;;; set_ser None ;;; ret false
      | OpenSerialException => set_ser None ;;; ret true
      | OpenException =>
          (fun w => (if ser_is_open w then close_port else ret tt) w) ;;;
          set_ser None ;;; ret false
      end
  end.

(** The configuration values [on_message] reads. *)
Record config : Type := mkConfig {
  SERIAL_PORT : option string;
  LINE_LENGTH : float;
  LINE_SPACING : float;
  PADDING : float
}.

Definition post_cmd : string := "G1 F500.0 X0.00 Y-8.00".

(** [for line in gcode_lines: ...], returning [success]. *)
Fixpoint send_program (success : bool) (gcode_lines : list string) : IO bool :=
  match gcode_lines with
  | [] => ret success
  | line :: rest =>
      let line := strip line in
      if negb (String.eqb line "") then
        r <- send_gcode line default_timeout ;;
        if fst r then send_program (fst r) rest else ret (fst r)
      else send_program success rest
  end.

(** [not letters] *)
Definition no_letters (letters : gmap string Letter) : bool :=
  match map_to_list letters with [] => true | _ :: _ => false end.

(** The part of [on_message] after the connection check. *)
Definition process_text (cfg : config) (letters : gmap string Letter)
    (text_payload : string) : IO unit :=
  if no_letters letters then ret tt
  else
    let gcode_output :=
      textToGcode text_payload letters (LINE_LENGTH cfg) (LINE_SPACING cfg)
                  (PADDING cfg) in
    match gcode_output with
    | [] => ret tt
    | _ :: _ =>
        success <- send_program true gcode_output ;;
        if success then
          if negb (endswith_newline text_payload) then
            send_gcode post_cmd default_timeout ;;; ret tt
          else ret tt
        else ret tt
    end.

Definition on_message (cfg : config) (letters : gmap string Letter)
    (payload : list Byte.byte) : IO unit :=
  match decode_strict payload with
  | None => ret tt
  | Some text_payload =>
      fun w =>
      if negb (ser_is_open w) then
        (ok <- init_grbl (SERIAL_PORT cfg) ;;
         if ok then process_text cfg letters text_payload else ret tt) w
      else process_text cfg letters text_payload w
  end.

End Driver.

(** The connection check at the head of [on_message]: the world after
    it, and whether the message is processed. *)
Definition connect (decode_ignore : list Byte.byte -> string)
    (cfg : config) : IO bool :=
  fun w =>
  if negb (ser_is_open w) then init_grbl decode_ignore (SERIAL_PORT cfg) w
  else ret true w.

(** The lines of a program that [on_message] sends. *)
Definition program_lines (gcode_lines : list string) : list string :=
  List.filter (fun l => negb (String.eqb l "")) (map strip gcode_lines).

(* ------------------------------------------------------------------ *)
(** ** Vocabulary for stating the compiler's properties *)

(** A letter's instructions cut into single moves and maximal runs of
    consecutive write instructions. *)
Inductive segment : Type :=
  | SegMove (i : Instr)
  | SegDraw (run : list Instr).

Fixpoint segments (l : list Instr) : list segment :=
  match l with
  | [] => []
  | i :: r =>
      match instr_type i, segments r with
      | move, s => SegMove i :: s
      | write, SegDraw run :: s => SegDraw (i :: run) :: s
      | write, s => SegDraw [i] :: s
      end
  end.

Definition segment_instrs (s : segment) : list Instr :=
  match s with SegMove i => [i] | SegDraw run => run end.

Definition is_write (i : Instr) : bool :=
  match instr_type i with write => true | move => false end.

(** A well-formed segment: a move instruction, or a non-empty run of
    write instructions. *)
Definition segment_ok (s : segment) : Prop :=
  match s with
  | SegMove i => instr_type i = move
  | SegDraw run => run <> [] /\ Forall (fun i => instr_type i = write) run
  end.

(** No two runs are adjacent: each run is maximal. *)
Fixpoint runs_maximal (s : list segment) : Prop :=
  match s with
  | SegDraw _ :: ((SegDraw _ :: _) as r) => False
  | _ :: r => runs_maximal r
  | [] => True
  end.

(** What a segment contributes to the program with the cursor at
    [(cx, cy)]: a rapid move, or a run of linear moves between exactly
    one pen-down and one pen-up. *)
Definition segment_cmds (cx cy : float) (s : segment) : list string :=
  match s with
  | SegMove i => [G0_move (F64.add cx (instr_x i)) (F64.add cy (instr_y i))]
  | SegDraw run =>
      [M03] ++
      map (fun i => G1_draw (F64.add cx (instr_x i)) (F64.add cy (instr_y i))) run ++
      [M05_F]
  end.

(** Pen commands.  [M04] followed by [M05] is the bracket that opens
    every line but the first; [M04] counts as a pen-down. *)
Inductive pen_cmd : Type := PenDown | PenUp.

Definition pen_class (c : string) : option pen_cmd :=
  if String.eqb c M03 || String.eqb c M04 then Some PenDown
  else if String.eqb c M05 || String.eqb c M05_F then Some PenUp
  else None.

Definition opposite (k : pen_cmd) : pen_cmd :=
  match k with PenDown => PenUp | PenUp => PenDown end.

(** Replays the pen commands of a program from the pen state [pen];
    [None] when a pen-down arrives with the pen down or a pen-up with
    the pen up. *)
Fixpoint pen_trace (pen : bool) (cmds : list string) : option bool :=
  match cmds with
  | [] => Some pen
  | c :: r =>
      match pen_class c with
      | None => pen_trace pen r
      | Some PenDown => if pen then None else pen_trace true r
      | Some PenUp => if pen then pen_trace false r else None
      end
  end.

(** The rapid move that advances to the next character is the only
    command with feed rate [F1000.0]. *)
Definition is_advance (c : string) : bool := String.prefix "G0 F1000.0" c.

Definition count_advances (cmds : list string) : nat :=
  length (filter (fun c => is_advance c = true) cmds).

Definition has_newline (s : string) : bool :=
  existsb (Ascii.eqb newline) (list_ascii_of_string s).

(** Characters of the text that are keys of the table. *)
Definition resolved (letters : gmap string Letter) (char : ascii) : bool :=
  match letters !! String char "" with Some _ => true | None => false end.

(** Characters of the text whose letter has at least one instruction. *)
Definition drawn (letters : gmap string Letter) (char : ascii) : bool :=
  match letters !! String char "" with
  | Some ld => match instructions ld with [] => false | _ :: _ => true end
  | None => false
  end.

Definition count_chars (p : ascii -> bool) (s : string) : nat :=
  length (filter (fun c => p c = true) (list_ascii_of_string s)).

(** The commands with which a letter's remaining instructions [l] are
    compiled when the pen flag is [pen]: with the pen down the program is
    inside a run, which the next segment continues or a pen-up ends. *)
Definition letter_cmds (cx cy : float) (pen : bool) (l : list Instr) : list string :=
  let draw i := G1_draw (F64.add cx (instr_x i)) (F64.add cy (instr_y i)) in
  let rest s := concat (map (segment_cmds cx cy) s) in
  if pen then
    match segments l with
    | SegDraw run :: s => map draw run ++ [M05_F] ++ rest s
    | s => [M05_F] ++ rest s
    end
  else rest (segments l).

(** States at the loop heads of [textToGcode]. *)
Inductive boundary (letters : gmap string Letter) (line_spacing padding : float)
  : cstate -> Prop :=
  | boundary_init : boundary letters line_spacing padding init_state
  | boundary_line st :
      boundary letters line_spacing padding st ->
      boundary letters line_spacing padding (start_line line_spacing st)
  | boundary_char st c :
      boundary letters line_spacing padding st ->
      boundary letters line_spacing padding (char_step letters padding st c).

Definition count_cmd (c : string) (cmds : list string) : nat :=
  length (filter (fun d => d = c) cmds).

(** The state of a program whose pen commands alternate, with as many
    bare [M05] as [M04], and whose pen is up. *)
Definition tidy (st : cstate) : Prop :=
  pen_is_down st = false /\
  pen_trace false (output st) = Some false /\
  count_cmd M05 (output st) = count_cmd M04 (output st).

(* ------------------------------------------------------------------ *)
(** ** Vocabulary for the reader and for the round trip of an instruction *)

(** The rank of a number that is not NaN in the order [SFcompare]
    decides: sign class first, then exponent, then mantissa. *)
Definition float_key (x : float) : Z * Z * Z :=
  match x with
  | S754_infinity true => (-2, 0, 0)
  | S754_finite true m e => (-1, - e, - Z.pos m)
  | S754_zero _ => (0, 0, 0)
  | S754_nan => (0, 0, 0)
  | S754_finite false m e => (1, e, Z.pos m)
  | S754_infinity false => (2, 0, 0)
  end.

Definition key_lt (a b : Z * Z * Z) : Prop :=
  let '(a1, a2, a3) := a in
  let '(b1, b2, b3) := b in
  a1 < b1 \/ (a1 = b1 /\ (a2 < b2 \/ (a2 = b2 /\ a3 < b3))).

(** What reading the ['%.2f'] text of a number gives back: the number
    nearest to the printed count of hundredths; infinities, zeros and
    NaN are printed and read back as they are. *)
Definition round2 (x : float) : float :=
  match x with
  | S754_finite s m e => float_of_decimal s (hundredths m e) (-2)
  | _ => x
  end.

Fixpoint string_forall (p : ascii -> bool) (s : string) : bool :=
  match s with
  | EmptyString => true
  | String c r => p c && string_forall p r
  end.

(** The characters of a ['%.2f'] text. *)
Definition fmt_char (c : ascii) : bool :=
  is_digit c || Ascii.eqb c "." || Ascii.eqb c "-" ||
  Ascii.eqb c "n" || Ascii.eqb c "a" || Ascii.eqb c "i" || Ascii.eqb c "f".


(** The digit ['%d'] prints for a motion class. *)
Definition type_digit (t : Instr_Type) : ascii :=
  match t with move => "0" | write => "1" end.


(* ------------------------------------------------------------------ *)
(** ** Example data *)

(** Example letters. *)
Definition letter_A : Letter :=
  mkLetter [mkInstr write F64.zero F64.zero;
            mkInstr write (F64.of_Z 5) (F64.of_Z 10)] (F64.of_Z 5).

Definition letter_space : Letter := mkLetter [] (F64.of_Z 4).
Definition letter_newline : Letter := mkLetter [] F64.inf.

(** The table [readLetters] starts from. *)
Definition builtin_letters : gmap string Letter :=
  <[String newline "" := letter_newline]> (<[" " := letter_space]> ∅).

Definition letters_A : gmap string Letter := <["A" := letter_A]> builtin_letters.

(** Example template files. *)
Definition template_three : string :=
  "G0 X1 Y1" ++ String newline "(outline)" ++ String newline "" ++
  String newline "G1 X6.5 Y2" ++ String newline "G1 X-2 Y0".

Definition template_void : string :=
  "(outline)" ++ String newline "" ++ String newline "%" ++
  String newline "G2 X1 Y1" ++ String newline "G1 X1".

(** A codec for the examples: it agrees with UTF-8 on ASCII input. *)
Definition is_ascii_byte (b : Byte.byte) : bool := (Byte.to_N b <? 128)%N.

Definition ascii_decode_ignore (l : list Byte.byte) : string :=
  string_of_list_byte (List.filter is_ascii_byte l).

Definition ascii_decode_strict (l : list Byte.byte) : option string :=
  if forallb is_ascii_byte l then Some (string_of_list_byte l) else None.

Definition bytes_of (s : string) : list Byte.byte := list_byte_of_string s.

Definition crlf : string := String "013" (String "010" "").

(** Example exchanges, the wait starting at clock 100 with timeout 2. *)
Definition exchange_ok : exchange :=
  mkExchange None (F64.of_Z 100)
    [Poll [] (F64.of_Z 101); Poll (bytes_of ("ok" ++ crlf)) (F64.of_Z 101)].

Definition exchange_error : exchange :=
  mkExchange None (F64.of_Z 100)
    [Poll [] (F64.of_Z 101); Poll (bytes_of ("error:20" ++ crlf)) (F64.of_Z 101)].

Definition exchange_timeout : exchange :=
  mkExchange None (F64.of_Z 100)
    [Poll (bytes_of ("<Idle>" ++ crlf)) (F64.of_Z 101); Poll [] (F64.of_Z 103)].

Definition world_open (exs : list exchange) : world :=
  mkWorld (Some true) [] [] exs.

Definition world_bypass : world := mkWorld None [] [] [].

Definition config_bypass : config :=
  mkConfig None F64.zero (F64.of_Z 8) (F64.of_Z 2).

Definition world_setup : world :=
  mkWorld None [] [OpenOk] [exchange_ok; exchange_ok; exchange_error; exchange_ok].

(* ------------------------------------------------------------------ *)
(** ** Vocabulary for further properties of the compiler *)

(** The characters of [s] that satisfy [p], in order. *)
Fixpoint filter_string (p : ascii -> bool) (s : string) : string :=
  match s with
  | EmptyString => EmptyString
  | String c r => if p c then String c (filter_string p r) else filter_string p r
  end.

(** The characters [textToGcode] looks at: line breaks and the
    characters that are keys of the table. *)
Definition relevant (letters : gmap string Letter) (c : ascii) : bool :=
  Ascii.eqb c newline || resolved letters c.

(** A command as [on_message] wants it: not blank, and with no white
    space to strip at either end. *)
Definition clean (cmd : string) : Prop := strip cmd = cmd /\ cmd <> "".

(** The number of runs of write instructions of a letter. *)
Definition is_run (s : segment) : bool :=
  match s with SegDraw _ => true | SegMove _ => false end.

Definition draw_runs (l : list Instr) : nat :=
  length (List.filter is_run (segments l)).

(** The number of commands a character adds to the program: for a letter
    with instructions, one per instruction, a pen-down and a pen-up per
    run, and the advance. *)
Definition char_cost (letters : gmap string Letter) (c : ascii) : nat :=
  match letters !! String c "" with
  | Some ld =>
      match instructions ld with
      | [] => 0%nat
      | l => (length l + 2 * draw_runs l + 1)%nat
      end
  | None => 0%nat
  end.

Definition line_cost (letters : gmap string Letter) (line : string) : nat :=
  list_sum (map (char_cost letters) (list_ascii_of_string line)).

Definition text_cost (letters : gmap string Letter) (text : string) : nat :=
  (3 * (length (split_lines text) - 1)
   + list_sum (map (line_cost letters) (split_lines text)))%nat.

(** The y coordinate of the cursor on line [n] (the first is line 0):
    the line spacing subtracted [n] times from 0. *)
Definition line_y (line_spacing : float) (n : nat) : float :=
  Nat.iter n (fun y => F64.sub y line_spacing) F64.zero.

(* ------------------------------------------------------------------ *)
(** ** Printing letters *)

(** ["\n".join(l)] *)
Fixpoint join_lines (l : list string) : string :=
  match l with
  | [] => ""
  | [x] => x
  | x :: r => x ++ String newline (join_lines r)
  end.

(** [Letter.__repr__]: the instructions, one per line, and a line break. *)
Definition Letter_repr (l : Letter) : string :=
  join_lines (map Instr_repr (instructions l)) ++ String newline "".

(** An instruction as it is read back from its printed line. *)
Definition reread (i : Instr) : Instr :=
  mkInstr (instr_type i) (round2 (instr_x i)) (round2 (instr_y i)).

(** A text without line break. *)
Definition one_line (s : string) : Prop :=
  string_forall (fun c => negb (Ascii.eqb c newline)) s = true.

(* ------------------------------------------------------------------ *)
(** ** [readLetters] *)

(** [str.lower] on one character. *)
Definition py_lower_char (c : ascii) : ascii :=
  let n := N_of_ascii c in
  if ((65 <=? n) && (n <=? 90)
      || (192 <=? n) && (n <=? 222) && negb (n =? 215))%N
  then ascii_of_N (n + 32) else c.

Fixpoint py_lower (s : string) : string :=
  match s with
  | EmptyString => EmptyString
  | String c r => String (py_lower_char c) (py_lower r)
  end.

(** [s.endswith(suffix)] *)
Definition endswith (s suffix : string) : bool :=
  let n := String.length s in
  let m := String.length suffix in
  (m <=? n)%nat && String.eqb (String.substring (n - m) m s) suffix.

(** [s.rfind(c)]: the last index of [c] in [s], or -1. *)
Fixpoint rfind (c : ascii) (s : string) : Z :=
  match s with
  | EmptyString => -1
  | String d r =>
      let k := rfind c r in
      if 0 <=? k then k + 1 else if Ascii.eqb d c then 0 else -1
  end.

(** [os.path.splitext(p)[0]] of [posixpath]: the path up to its last
    dot, when that dot comes after the last slash and after a character
    of the file name that is not a dot; the whole path otherwise. *)
Definition splitext_root (p : string) : string :=
  let sepIndex := rfind "/" p in
  let dotIndex := rfind "." p in
  if sepIndex <? dotIndex then
    let filenameIndex := Z.to_nat (sepIndex + 1) in
    if string_forall (fun c => Ascii.eqb c ".")
         (String.substring filenameIndex (Z.to_nat dotIndex - filenameIndex) p)
    then p
    else String.substring 0 (Z.to_nat dotIndex) p
  else p.

(** What opening and reading a file gives: its text, a
    [UnicodeDecodeError], or another exception. *)
Inductive file_read : Type :=
  | FileText (data : string)
  | FileUndecodable
  | FileFails.

(** The body of [for filename in filenames]. *)
Definition read_file (local_letters : gmap string Letter)
    (entry : string * file_read) : gmap string Letter :=
  let (filename, contents) := entry in
  if endswith (py_lower filename) ".nc" then
    let char_key := splitext_root filename in
    match contents with
    | FileText data =>
        if negb (String.eqb data "")
        then <[char_key := Letter_of_string data]> local_letters
        else local_letters
    | FileUndecodable => local_letters
    | FileFails => local_letters
    end
  else local_letters.

(** [readLetters(directory)]: [None] when the path is no directory,
    otherwise the files met by [os.walk], in its order, each with what
    reading it gives. *)
Definition readLetters (directory : option (list (string * file_read)))
    : option (gmap string Letter) :=
  match directory with
  | None => None
  | Some files => Some (fold_left read_file files builtin_letters)
  end.

(** The entry a file adds to the table, if it adds one. *)
Definition loaded (entry : string * file_read) : option (string * Letter) :=
  match entry with
  | (filename, FileText data) =>
      if endswith (py_lower filename) ".nc" && negb (String.eqb data "")
      then Some (splitext_root filename, Letter_of_string data)
      else None
  | _ => None
  end.

Definition has_key (k : string) (p : string * Letter) : bool :=
  String.eqb (fst p) k.

(* ------------------------------------------------------------------ *)
(** ** Further example data *)

(** A port that opens on a controller that acknowledges everything. *)
Definition world_ready : world :=
  mkWorld None [] [OpenOk] (repeat exchange_ok 12).

Definition config_port : config :=
  mkConfig (Some "/dev/ttyUSB0") F64.zero (F64.of_Z 8) (F64.of_Z 2).

(* ------------------------------------------------------------------ *)
(** ** The compiler, one character at a time *)

(** What a character of the text does to the state: a line break
    starts the next line, another character is compiled in the line. *)
Definition text_step (letters : gmap string Letter)
    (line_spacing padding : float) (st : cstate) (c : ascii) : cstate :=
  if Ascii.eqb c newline then start_line line_spacing st
  else char_step letters padding st c.

(* ------------------------------------------------------------------ *)
(** ** Vocabulary for the fields of a template line *)






(* ================================================================== *)
(** * Properties of the compiler *)

Local Open Scope list_scope.

Section CompilerFacts.

Lemma output_emit c st : output (emit c st) = output st ++ [c].
Proof. reflexivity. Qed.

Lemma split_on_nonempty sep s : split_on sep s <> [].
Proof.
  destruct s as [|c r]; cbn [split_on]; [discriminate|].
  destruct (Ascii.eqb c sep); [discriminate|].
  destruct (split_on sep r); discriminate.
Qed.

Lemma split_lines_nonempty s : split_lines s <> [].
Proof. apply split_on_nonempty. Qed.

Lemma split_lines_no_newline s :
  has_newline s = false -> split_lines s = [s].
Proof.
  unfold has_newline, split_lines.
  induction s as [|c r IH]; cbn [existsb list_ascii_of_string split_on];
    [reflexivity|].
  rewrite (Ascii.eqb_sym newline c).
  destruct (Ascii.eqb c newline); cbn [orb]; [discriminate|].
  intros H. rewrite (IH H). reflexivity.
Qed.

Lemma instr_step_frame st i :
  current_x (instr_step st i) = current_x st /\
  current_y (instr_step st i) = current_y st /\
  first_line (instr_step st i) = first_line st.
Proof.
  unfold instr_step.
  destruct (instr_type i), (pen_is_down st); cbn; auto.
Qed.

Lemma fold_instr_step_frame l : forall st,
  current_x (fold_left instr_step l st) = current_x st /\
  current_y (fold_left instr_step l st) = current_y st /\
  first_line (fold_left instr_step l st) = first_line st.
Proof.
  induction l as [|i r IH]; intros st; cbn [fold_left]; [auto|].
  destruct (IH (instr_step st i)) as (Hx & Hy & Hf).
  destruct (instr_step_frame st i) as (Hx' & Hy' & Hf').
  rewrite Hx, Hy, Hf. auto.
Qed.

(** The instruction loop followed by the closing pen-up emits the
    letter's segments. *)
Lemma fold_instr_step_output l : forall st,
  let st2 := fold_left instr_step l st in
  output (if pen_is_down st2 then set_pen false (emit M05_F st2) else st2)
  = output st ++ letter_cmds (current_x st) (current_y st) (pen_is_down st) l.
Proof.
  induction l as [|i r IH]; intros st; cbn zeta in *.
  - cbn [fold_left]. unfold letter_cmds.
    destruct (pen_is_down st); cbn; [reflexivity | now rewrite app_nil_r].
  - cbn [fold_left]. rewrite IH.
    destruct (instr_step_frame st i) as (Hx & Hy & _). rewrite Hx, Hy.
    unfold instr_step, letter_cmds. cbn [segments].
    destruct (instr_type i) eqn:Ht, (pen_is_down st) eqn:Hp;
      cbn [negb pen_is_down output emit set_pen]; rewrite ?Hp;
      try (destruct (segments r) as [|[j|run] s]);
      cbn [segment_cmds map concat app];
      rewrite <- ?app_assoc; reflexivity.
Qed.

Lemma letter_step_pen padding st ld :
  pen_is_down (letter_step padding st ld) = false.
Proof.
  unfold letter_step. destruct (instructions ld) as [|i r].
  - unfold pen_up_if_down. cbn [pen_is_down set_x].
    destruct (pen_is_down st) eqn:Hp; [reflexivity | exact Hp].
  - cbn [pen_is_down emit set_x].
    destruct (pen_is_down (fold_left instr_step (i :: r) (set_pen false st))) eqn:Hp;
      [reflexivity | exact Hp].
Qed.

Lemma letter_step_output padding st ld :
  output (letter_step padding st ld)
  = output st ++
    match instructions ld with
    | [] => if pen_is_down st then [M05] else []
    | l => letter_cmds (current_x st) (current_y st) false l ++
           [G0_advance (F64.add (current_x st) (F64.add (width ld) padding))
                       (current_y st)]
    end.
Proof.
  unfold letter_step. destruct (instructions ld) as [|i r] eqn:Hl.
  - unfold pen_up_if_down. cbn [pen_is_down set_x].
    destruct (pen_is_down st); cbn; [reflexivity | now rewrite app_nil_r].
  - set (st2 := fold_left instr_step (i :: r) (set_pen false st)).
    set (st3 := if pen_is_down st2 then set_pen false (emit M05_F st2) else st2).
    assert (Hout : output st3 = output st ++
              letter_cmds (current_x st) (current_y st) false (i :: r))
      by (subst st3 st2; rewrite fold_instr_step_output; reflexivity).
    assert (Hxy : current_x st3 = current_x st /\ current_y st3 = current_y st).
    { destruct (fold_instr_step_frame (i :: r) (set_pen false st)) as (Hx & Hy & _).
      fold st2 in Hx, Hy. subst st3.
      destruct (pen_is_down st2); cbn [current_x current_y set_pen emit];
        rewrite Hx, Hy; auto. }
    destruct Hxy as [Hx Hy].
    cbn [output emit set_x current_x current_y].
    rewrite Hout, Hx, Hy, <- app_assoc. reflexivity.
Qed.

(** *** Segments *)

Lemma segments_flatten l : concat (map segment_instrs (segments l)) = l.
Proof.
  induction l as [|i r IH]; cbn [segments]; [reflexivity|].
  destruct (instr_type i).
  - cbn. now rewrite IH.
  - destruct (segments r) as [|[j|run] s]; cbn in *; now rewrite <- IH.
Qed.

Lemma segments_ok l : Forall segment_ok (segments l).
Proof.
  induction l as [|i r IH]; cbn [segments]; [constructor|].
  destruct (instr_type i) eqn:Ht.
  - constructor; [exact Ht | exact IH].
  - destruct (segments r) as [|[j|run] s].
    + constructor; [|constructor]. split; [discriminate|]. now constructor.
    + constructor; [|exact IH]. split; [discriminate|]. now constructor.
    + apply Forall_cons in IH as [[Hne Hall] Hs].
      constructor; [|exact Hs]. split; [discriminate|]. now constructor.
Qed.

Lemma segments_maximal l : runs_maximal (segments l).
Proof.
  induction l as [|i r IH]; cbn [segments]; [exact I|].
  destruct (instr_type i).
  - exact IH.
  - destruct (segments r) as [|[j|run] s]; cbn in *; try exact IH; exact I.
Qed.

(** *** Pen commands *)

Lemma pen_class_G0_move x y : pen_class (G0_move x y) = None.
Proof. reflexivity. Qed.

Lemma pen_class_G1_draw x y : pen_class (G1_draw x y) = None.
Proof. reflexivity. Qed.

Lemma pen_class_G0_advance x y : pen_class (G0_advance x y) = None.
Proof. reflexivity. Qed.

Lemma pen_class_G0_line x y : pen_class (G0_line x y) = None.
Proof. reflexivity. Qed.

Lemma pen_trace_app a : forall pen b,
  pen_trace pen (a ++ b) =
  match pen_trace pen a with Some q => pen_trace q b | None => None end.
Proof.
  induction a as [|c r IH]; intros pen b; cbn [app pen_trace]; [reflexivity|].
  destruct (pen_class c) as [[|]|]; destruct pen; auto.
Qed.

Lemma pen_trace_draws cx cy run : forall pen rest,
  pen_trace pen
    (map (fun i => G1_draw (F64.add cx (instr_x i)) (F64.add cy (instr_y i))) run
     ++ rest) = pen_trace pen rest.
Proof.
  induction run as [|i r IH]; intros pen rest; cbn [map app]; [reflexivity|].
  cbn [pen_trace]. rewrite pen_class_G1_draw. apply IH.
Qed.

Lemma pen_trace_segments cx cy s :
  pen_trace false (concat (map (segment_cmds cx cy) s)) = Some false.
Proof.
  induction s as [|[i|run] s IH]; cbn [map concat]; [reflexivity| |].
  - cbn [segment_cmds app pen_trace]. now rewrite pen_class_G0_move.
  - cbn [segment_cmds]. rewrite <- !app_assoc. cbn [app pen_trace].
    change (pen_class M03) with (Some PenDown). cbn iota.
    rewrite pen_trace_draws. cbn [app pen_trace].
    change (pen_class M05_F) with (Some PenUp). exact IH.
Qed.

(** *** Advance commands *)

Lemma count_advances_app a b :
  count_advances (a ++ b) = (count_advances a + count_advances b)%nat.
Proof. unfold count_advances. now rewrite filter_app, length_app. Qed.

Lemma count_advances_segments cx cy s :
  count_advances (concat (map (segment_cmds cx cy) s)) = 0%nat.
Proof.
  induction s as [|[i|run] s IH]; cbn [map concat]; [reflexivity| |].
  - rewrite count_advances_app, IH. reflexivity.
  - rewrite count_advances_app, IH. cbn [segment_cmds].
    rewrite !count_advances_app.
    assert (H : count_advances
      (map (fun i => G1_draw (F64.add cx (instr_x i)) (F64.add cy (instr_y i))) run)
      = 0%nat).
    { induction run as [|i r IHr]; [reflexivity|]. cbn [map].
      change (?c :: ?l) with ([c] ++ l). rewrite count_advances_app, IHr.
      reflexivity. }
    rewrite H. reflexivity.
Qed.

(** *** Occurrences of a command *)

Ltac count_eval :=
  repeat match goal with
  | |- context [count_cmd ?c [?d]] =>
      let v := eval vm_compute in (count_cmd c [d]) in
      change (count_cmd c [d]) with v
  | |- context [count_cmd ?c []] => change (count_cmd c []) with 0%nat
  | |- context [count_advances [?d]] =>
      let v := eval vm_compute in (count_advances [d]) in
      change (count_advances [d]) with v
  | |- context [count_advances []] => change (count_advances []) with 0%nat
  end.

Lemma count_cmd_app c a b :
  count_cmd c (a ++ b) = (count_cmd c a + count_cmd c b)%nat.
Proof. unfold count_cmd. now rewrite filter_app, length_app. Qed.

Lemma count_cmd_draws c cx cy run :
  c = M04 \/ c = M05 ->
  count_cmd c
    (map (fun i => G1_draw (F64.add cx (instr_x i)) (F64.add cy (instr_y i))) run)
  = 0%nat.
Proof.
  intros Hc. induction run as [|i r IH]; [reflexivity|]. cbn [map].
  change (?d :: ?l) with ([d] ++ l). rewrite count_cmd_app, IH.
  destruct Hc as [-> | ->]; reflexivity.
Qed.

Lemma count_cmd_segments c cx cy s :
  c = M04 \/ c = M05 ->
  count_cmd c (concat (map (segment_cmds cx cy) s)) = 0%nat.
Proof.
  intros Hc. induction s as [|[i|run] s IH]; cbn [map concat]; [reflexivity| |];
    rewrite count_cmd_app, IH.
  - destruct Hc as [-> | ->]; reflexivity.
  - cbn [segment_cmds]. rewrite !count_cmd_app, count_cmd_draws by exact Hc.
    destruct Hc as [-> | ->]; reflexivity.
Qed.

(** *** The steps keep the program tidy *)

Lemma letter_step_frame padding st ld :
  current_y (letter_step padding st ld) = current_y st /\
  first_line (letter_step padding st ld) = first_line st.
Proof.
  unfold letter_step. destruct (instructions ld) as [|i r].
  - unfold pen_up_if_down. cbn [pen_is_down set_x].
    destruct (pen_is_down st); cbn; auto.
  - set (st2 := fold_left instr_step (i :: r) (set_pen false st)).
    destruct (fold_instr_step_frame (i :: r) (set_pen false st)) as (_ & Hy & Hf).
    fold st2 in Hy, Hf. cbn [current_y first_line emit set_x].
    destruct (pen_is_down st2); cbn [current_y first_line set_pen emit];
      rewrite Hy, Hf; auto.
Qed.

Lemma tidy_init : tidy init_state.
Proof. repeat split. Qed.

Lemma tidy_letter_step padding st ld : tidy st -> tidy (letter_step padding st ld).
Proof.
  intros (Hp & Ht & Hc). split; [apply letter_step_pen|].
  rewrite letter_step_output, Hp.
  destruct (instructions ld) as [|i r].
  - rewrite app_nil_r. auto.
  - unfold letter_cmds. split.
    + rewrite pen_trace_app, Ht, pen_trace_app, pen_trace_segments.
      cbn [pen_trace]. now rewrite pen_class_G0_advance.
    + rewrite !count_cmd_app, !count_cmd_segments, Hc by auto. reflexivity.
Qed.

Lemma tidy_char_step letters padding st c :
  tidy st -> tidy (char_step letters padding st c).
Proof.
  intros H. unfold char_step.
  destruct (letters !! String c ""); [now apply tidy_letter_step | exact H].
Qed.

Lemma start_line_output line_spacing st :
  output (start_line line_spacing st)
  = output st ++
    if first_line st then []
    else (if pen_is_down st then [M05] else []) ++
         [G0_line F64.zero (F64.sub (current_y st) line_spacing); M04; M05].
Proof.
  unfold start_line, pen_up_if_down.
  destruct (first_line st); [cbn; now rewrite app_nil_r|].
  cbn [pen_is_down set_x set_y].
  destruct (pen_is_down st); cbn; rewrite <- ?app_assoc; reflexivity.
Qed.

Lemma start_line_pen line_spacing st :
  pen_is_down st = false -> pen_is_down (start_line line_spacing st) = false.
Proof.
  intros Hp. unfold start_line, pen_up_if_down.
  destruct (first_line st); [exact Hp|].
  cbn [pen_is_down set_x set_y]. rewrite Hp. exact Hp.
Qed.

Lemma tidy_start_line line_spacing st : tidy st -> tidy (start_line line_spacing st).
Proof.
  intros (Hp & Ht & Hc). split; [now apply start_line_pen|].
  rewrite start_line_output, Hp. destruct (first_line st).
  - rewrite app_nil_r. auto.
  - split.
    + rewrite pen_trace_app, Ht. reflexivity.
    + rewrite !count_cmd_app, Hc. reflexivity.
Qed.

Lemma boundary_tidy letters line_spacing padding st :
  boundary letters line_spacing padding st -> tidy st.
Proof.
  induction 1; auto using tidy_init, tidy_start_line, tidy_char_step.
Qed.

Lemma boundary_chars letters line_spacing padding cs : forall st,
  boundary letters line_spacing padding st ->
  boundary letters line_spacing padding (fold_left (char_step letters padding) cs st).
Proof.
  induction cs as [|c r IH]; intros st H; cbn [fold_left]; [exact H|].
  apply IH. now constructor.
Qed.

Lemma boundary_lines letters line_spacing padding ls : forall st,
  boundary letters line_spacing padding st ->
  boundary letters line_spacing padding
    (fold_left (line_step letters line_spacing padding) ls st).
Proof.
  induction ls as [|l r IH]; intros st H; cbn [fold_left]; [exact H|].
  apply IH. unfold line_step. apply boundary_chars. now constructor.
Qed.

Lemma boundary_compile_state text letters line_spacing padding :
  boundary letters line_spacing padding
    (compile_state text letters line_spacing padding).
Proof. apply boundary_lines. constructor. Qed.

(** *** Line brackets *)

Lemma char_step_frame letters padding st c :
  first_line (char_step letters padding st c) = first_line st /\
  count_cmd M04 (output (char_step letters padding st c)) = count_cmd M04 (output st).
Proof.
  unfold char_step. destruct (letters !! String c "") as [ld|]; [|auto].
  split; [apply letter_step_frame|].
  rewrite letter_step_output, count_cmd_app.
  destruct (instructions ld) as [|i r].
  - destruct (pen_is_down st); count_eval; lia.
  - unfold letter_cmds. rewrite count_cmd_app, count_cmd_segments by auto.
    count_eval. lia.
Qed.

Lemma fold_char_step_frame letters padding cs : forall st,
  first_line (fold_left (char_step letters padding) cs st) = first_line st /\
  count_cmd M04 (output (fold_left (char_step letters padding) cs st))
  = count_cmd M04 (output st).
Proof.
  induction cs as [|c r IH]; intros st; cbn [fold_left]; [auto|].
  destruct (IH (char_step letters padding st c)) as [Hf Hc].
  destruct (char_step_frame letters padding st c) as [Hf' Hc'].
  rewrite Hf, Hc. auto.
Qed.

Lemma line_step_brackets letters line_spacing padding st l :
  let st' := line_step letters line_spacing padding st l in
  first_line st' = false /\
  count_cmd M04 (output st')
  = (count_cmd M04 (output st) + if first_line st then 0 else 1)%nat.
Proof.
  cbn zeta. unfold line_step.
  destruct (fold_char_step_frame letters padding (list_ascii_of_string l)
              (start_line line_spacing st)) as [Hf Hc].
  rewrite Hf, Hc, start_line_output, count_cmd_app. split.
  - unfold start_line, pen_up_if_down.
    destruct (first_line st) eqn:E; [reflexivity|].
    cbn [pen_is_down set_x set_y]. destruct (pen_is_down st); cbn; exact E.
  - destruct (first_line st); [reflexivity|].
    rewrite count_cmd_app. destruct (pen_is_down st); reflexivity.
Qed.

Lemma fold_line_step_brackets letters line_spacing padding ls : forall st,
  first_line st = false ->
  count_cmd M04 (output (fold_left (line_step letters line_spacing padding) ls st))
  = (count_cmd M04 (output st) + length ls)%nat.
Proof.
  induction ls as [|l r IH]; intros st Hf; cbn [fold_left length]; [lia|].
  destruct (line_step_brackets letters line_spacing padding st l) as [Hf' Hc].
  rewrite IH, Hc, Hf by exact Hf'. lia.
Qed.

Lemma compile_state_brackets text letters line_spacing padding :
  count_cmd M04 (output (compile_state text letters line_spacing padding))
  = (length (split_lines text) - 1)%nat.
Proof.
  unfold compile_state. pose proof (split_lines_nonempty text) as Hne.
  destruct (split_lines text) as [|l r]; [congruence|]. cbn [fold_left length].
  destruct (line_step_brackets letters line_spacing padding init_state l) as [Hf Hc].
  rewrite fold_line_step_brackets, Hc by exact Hf. cbn. lia.
Qed.

(** *** Counting advances *)

Lemma fold_char_step_advances letters padding cs : forall st,
  count_advances (output (fold_left (char_step letters padding) cs st))
  = (count_advances (output st)
     + length (filter (fun c => drawn letters c = true) cs))%nat.
Proof.
  induction cs as [|c r IH]; intros st; cbn [fold_left]; [cbn; lia|].
  rewrite IH, filter_cons.
  assert (Hd : drawn letters c = match letters !! String c "" with
                | Some ld => match instructions ld with [] => false | _ => true end
                | None => false end) by reflexivity.
  unfold char_step.
  destruct (letters !! String c "") as [ld|].
  - rewrite letter_step_output, count_advances_app.
    destruct (instructions ld) as [|i l].
    + rewrite decide_False by (rewrite Hd; discriminate).
      destruct (pen_is_down st); count_eval; lia.
    + rewrite decide_True by exact Hd. unfold letter_cmds.
      rewrite count_advances_app, count_advances_segments. count_eval.
      cbn [length]. lia.
  - rewrite decide_False by (rewrite Hd; discriminate). lia.
Qed.

(** *** Two commands of one class have one of the other class between *)

Lemma pen_trace_between k mid : forall d2 b,
  pen_class d2 = Some k ->
  pen_trace (match k with PenDown => true | PenUp => false end)
            (mid ++ d2 :: b) <> None ->
  exists c, In c mid /\ pen_class c = Some (opposite k).
Proof.
  induction mid as [|c m IH]; intros d2 b Hd2; cbn [app pen_trace].
  - rewrite Hd2. destruct k; intros H; now contradiction H.
  - destruct (pen_class c) as [[|]|] eqn:Hc.
    + destruct k; [intros H; now contradiction H|].
      intros _. exists c. split; [now left | exact Hc].
    + destruct k; [|intros H; now contradiction H].
      intros _. exists c. split; [now left | exact Hc].
    + intros H. destruct (IH d2 b Hd2 H) as (c' & Hin & Hc').
      exists c'. split; [now right | exact Hc'].
Qed.

Lemma pen_trace_alternates cmds : forall pen a d1 mid d2 b k,
  pen_trace pen cmds <> None ->
  cmds = a ++ d1 :: mid ++ d2 :: b ->
  pen_class d1 = Some k -> pen_class d2 = Some k ->
  exists c, In c mid /\ pen_class c = Some (opposite k).
Proof.
  intros pen a d1 mid d2 b k Hok -> Hd1 Hd2.
  rewrite pen_trace_app in Hok.
  destruct (pen_trace pen a) as [q|]; [|now contradiction Hok].
  cbn [pen_trace] in Hok. rewrite Hd1 in Hok.
  apply (pen_trace_between k mid d2 b Hd2).
  destruct k, q; solve [exact Hok | now contradiction Hok].
Qed.

End CompilerFacts.

(* ================================================================== *)
(** * The compiler's claims *)

(** C1.  With a table whose letter [A] is two write instructions at
    (0,0) and (5,10) and has width 5, the text ["A"] compiles, from the
    cursor (0,0), to exactly: pen down, a linear move to (0,0), a linear
    move to (5,10), pen up, and the rapid advance to x = 0 + (5 + padding)
    at the unchanged y = 0. *)
Theorem C1_compile_letter_A (letters : gmap string Letter)
    (line_length line_spacing padding : float) :
  letters !! "A" = Some letter_A ->
  textToGcode "A" letters line_length line_spacing padding =
  [ "M03 S150";
    "G1 F1500.0 X0.00 Y0.00";
    "G1 F1500.0 X5.00 Y10.00";
    "M05 F1500.0";
    ("G0 F1000.0 X"
       ++ fmt2 (F64.add F64.zero (F64.add (F64.of_Z 5) padding))
       ++ " Y0.00")%string ].
Proof.
  intros HA. unfold textToGcode, compile_state.
  unfold split_lines. cbn [split_on Ascii.eqb newline Bool.eqb fold_left].
  unfold line_step. cbn [list_ascii_of_string fold_left].
  unfold char_step. rewrite HA.
  rewrite letter_step_output. reflexivity.
Qed.

Lemma C1_compile_letter_A_witness :
  letters_A !! "A" = Some letter_A /\
  textToGcode "A" letters_A F64.zero (F64.of_Z 8) (F64.of_Z 2) =
  [ "M03 S150"; "G1 F1500.0 X0.00 Y0.00"; "G1 F1500.0 X5.00 Y10.00";
    "M05 F1500.0"; "G0 F1000.0 X7.00 Y0.00" ].
Proof.
  split; [reflexivity|].
  rewrite (C1_compile_letter_A letters_A F64.zero (F64.of_Z 8) (F64.of_Z 2));
    reflexivity.
Defined.

(** C2.  Whatever the state in which a letter is processed, the pen flag
    is false when the letter is done.  The letter's instructions fall
    into single moves and maximal non-empty runs of write instructions,
    and the commands added for the letter are, segment by segment, a
    rapid move for a move and, for a run, one pen-down, the run's linear
    moves and one pen-up; the advance follows.  A letter without
    instructions adds nothing when the pen is up. *)
Theorem C2_letter_leaves_pen_up (padding : float) (st : cstate) (ld : Letter) :
  let segs := segments (instructions ld) in
  pen_is_down (letter_step padding st ld) = false /\
  concat (map segment_instrs segs) = instructions ld /\
  Forall segment_ok segs /\
  runs_maximal segs /\
  output (letter_step padding st ld) =
  output st ++
  match instructions ld with
  | [] => if pen_is_down st then [M05] else []
  | _ :: _ =>
      concat (map (segment_cmds (current_x st) (current_y st)) segs) ++
      [G0_advance (F64.add (current_x st) (F64.add (width ld) padding))
                  (current_y st)]
  end.
Proof.
  cbn zeta. split; [apply letter_step_pen|].
  split; [apply segments_flatten|].
  split; [apply segments_ok|].
  split; [apply segments_maximal|].
  rewrite letter_step_output. destruct (instructions ld); reflexivity.
Qed.

(** C3.  In the compiled program, between two pen-down commands there is
    a pen-up command and between two pen-up commands there is a
    pen-down command; the program is the compiler's output itself, no
    pass filters it. *)
Theorem C3_no_redundant_pen_toggle (text : string) (letters : gmap string Letter)
    (line_length line_spacing padding : float)
    (a : list string) (d1 : string) (mid : list string) (d2 : string)
    (b : list string) (k : pen_cmd) :
  textToGcode text letters line_length line_spacing padding
    = a ++ d1 :: mid ++ d2 :: b ->
  pen_class d1 = Some k ->
  pen_class d2 = Some k ->
  exists c, In c mid /\ pen_class c = Some (opposite k).
Proof.
  intros Hout Hd1 Hd2.
  destruct (boundary_tidy _ _ _ _
              (boundary_compile_state text letters line_spacing padding))
    as (_ & Ht & _).
  apply (pen_trace_alternates
           (textToGcode text letters line_length line_spacing padding)
           false a d1 mid d2 b k); auto.
  unfold textToGcode. rewrite Ht. discriminate.
Qed.

Lemma C3_no_redundant_pen_toggle_witness :
  exists c,
    In c ["G1 F1500.0 X0.00 Y0.00"; "G1 F1500.0 X5.00 Y10.00"; "M05 F1500.0";
          "G0 F1000.0 X7.00 Y0.00"]
    /\ pen_class c = Some PenUp.
Proof.
  apply (C3_no_redundant_pen_toggle "A A" letters_A F64.zero (F64.of_Z 8) (F64.of_Z 2)
           [] "M03 S150"
           ["G1 F1500.0 X0.00 Y0.00"; "G1 F1500.0 X5.00 Y10.00"; "M05 F1500.0";
            "G0 F1000.0 X7.00 Y0.00"]
           "M03 S150"
           ["G1 F1500.0 X13.00 Y0.00"; "G1 F1500.0 X18.00 Y10.00"; "M05 F1500.0";
            "G0 F1000.0 X20.00 Y0.00"]
           PenDown); reflexivity.
Defined.

(** C4, as amended.  For a text without line break, the number of rapid
    advance commands of the program is the number of characters of the
    text whose letter is in the table and has at least one instruction. *)
Theorem C4_advances_count_drawn_letters (text : string)
    (letters : gmap string Letter) (line_length line_spacing padding : float) :
  has_newline text = false ->
  count_advances (textToGcode text letters line_length line_spacing padding)
  = count_chars (drawn letters) text.
Proof.
  intros Hnl. unfold textToGcode, compile_state, count_chars.
  rewrite (split_lines_no_newline text Hnl). cbn [fold_left].
  unfold line_step. rewrite fold_char_step_advances.
  unfold start_line. cbn. reflexivity.
Qed.

Lemma C4_advances_count_drawn_letters_witness :
  has_newline "A A" = false /\
  count_advances (textToGcode "A A" letters_A F64.zero (F64.of_Z 8) (F64.of_Z 2))
  = 2%nat.
Proof.
  split; [reflexivity|].
  rewrite (C4_advances_count_drawn_letters "A A" letters_A); reflexivity.
Defined.

(** C4, as stated, fails: the space of the built-in table is found in
    the table, and the text [" "] compiles to the empty program, which
    has no advance command. *)
Lemma C4_counterexample :
  has_newline " " = false /\
  textToGcode " " builtin_letters F64.zero (F64.of_Z 8) (F64.of_Z 2) = [] /\
  count_chars (resolved builtin_letters) " " = 1%nat /\
  count_advances
    (textToGcode " " builtin_letters F64.zero (F64.of_Z 8) (F64.of_Z 2))
  <> count_chars (resolved builtin_letters) " ".
Proof. repeat split; discriminate. Qed.

(** C10.  At the head of the line loop (before each line) and at the head
    of the character loop (before each character of each line, and after
    the last), the pen flag is false.  So the guarded pen-up of the
    line-break branch and that of the empty-letter branch leave the
    state as it is, and the program holds exactly one bare [M05] for each
    [M04], that is one for each line after the first. *)
Theorem C10_pen_up_at_loop_heads (text : string) (letters : gmap string Letter)
    (line_length line_spacing padding : float)
    (pre : list string) (line : string) (post : list string)
    (cpre cpost : list ascii) :
  split_lines text = pre ++ line :: post ->
  list_ascii_of_string line = cpre ++ cpost ->
  let st_line := fold_left (line_step letters line_spacing padding) pre init_state in
  let st_char :=
    fold_left (char_step letters padding) cpre (start_line line_spacing st_line) in
  let st_break :=
    set_x F64.zero (set_y (F64.sub (current_y st_line) line_spacing) st_line) in
  let program := textToGcode text letters line_length line_spacing padding in
  pen_is_down st_line = false /\
  pen_is_down st_char = false /\
  pen_up_if_down st_break = st_break /\
  (forall v, pen_up_if_down (set_x v st_char) = set_x v st_char) /\
  count_cmd M05 program = count_cmd M04 program /\
  count_cmd M04 program = (length (split_lines text) - 1)%nat.
Proof.
  intros _ _ st_line st_char st_break program.
  assert (Hl : boundary letters line_spacing padding st_line)
    by (apply boundary_lines; constructor).
  assert (Hc : boundary letters line_spacing padding st_char)
    by (apply boundary_chars; now constructor).
  destruct (boundary_tidy _ _ _ _ Hl) as (Hpl & _).
  destruct (boundary_tidy _ _ _ _ Hc) as (Hpc & _).
  destruct (boundary_tidy _ _ _ _
              (boundary_compile_state text letters line_spacing padding))
    as (_ & _ & Hcount).
  repeat split; auto.
  - unfold pen_up_if_down, st_break. cbn [pen_is_down set_x set_y].
    now rewrite Hpl.
  - intros v. unfold pen_up_if_down. cbn [pen_is_down set_x]. now rewrite Hpc.
  - apply compile_state_brackets.
Qed.

Lemma C10_pen_up_at_loop_heads_witness :
  let text := String "A" (String " " (String newline "A")) in
  let st_line :=
    fold_left (line_step letters_A (F64.of_Z 8) (F64.of_Z 2)) ["A "] init_state in
  let st_char :=
    fold_left (char_step letters_A (F64.of_Z 2)) ["A"%char]
              (start_line (F64.of_Z 8) st_line) in
  let program := textToGcode text letters_A F64.zero (F64.of_Z 8) (F64.of_Z 2) in
  split_lines text = ["A "] ++ "A" :: [] /\
  pen_is_down st_line = false /\
  pen_is_down st_char = false /\
  count_cmd M05 program = 1%nat.
Proof.
  cbn zeta.
  destruct (C10_pen_up_at_loop_heads
              (String "A" (String " " (String newline "A")))
              letters_A F64.zero (F64.of_Z 8) (F64.of_Z 2)
              ["A "] "A" [] ["A"%char] [] eq_refl eq_refl)
    as (H1 & H2 & _ & _ & H5 & H6).
  split; [reflexivity|]. split; [exact H1|]. split; [exact H2|].
  rewrite H5, H6. reflexivity.
Defined.

(* ================================================================== *)
(** * Properties of the driver *)

Section DriverFacts.

Variable decode_ignore : list Byte.byte -> string.
Variable decode_strict : list Byte.byte -> option string.

Lemma prefix_error_not_ok d :
  String.prefix "error:" d = true -> String.eqb d "ok" = false.
Proof.
  destruct d as [|a d']; cbn [String.prefix]; [discriminate|].
  destruct (ascii_dec "e" a) as [<-|]; [reflexivity | discriminate].
Qed.

Lemma await_waiting timeout start quiet : forall buffer rest,
  Forall (waiting decode_ignore timeout start) quiet ->
  await decode_ignore timeout start buffer (quiet ++ rest)
  = await decode_ignore timeout start
      (buffer ++ concat (map poll_bytes quiet)) rest.
Proof.
  induction quiet as [|p q IH]; intros buffer rest Hq; cbn [app map concat].
  - now rewrite app_nil_r.
  - apply Forall_cons in Hq as [Hp Hq].
    destruct p as [line now|e]; [|contradiction Hp].
    destruct Hp as [Hterm Htime]. unfold is_terminal in Hterm.
    cbn [await poll_bytes]. rewrite Hterm, Htime, app_assoc.
    destruct (is_empty_bytes line) eqn:He.
    + destruct line; [|discriminate]. rewrite app_nil_r. now apply IH.
    + now apply IH.
Qed.

Lemma await_then timeout start quiet line now later :
  Forall (waiting decode_ignore timeout start) quiet ->
  await decode_ignore timeout start [] (quiet ++ Poll line now :: later)
  = let decoded_line := strip (decode_ignore line) in
    if is_terminal decode_ignore line
    then Some (String.eqb decoded_line "ok", decoded_line)
    else if F64.ltb timeout (F64.sub now start)
    then Some (false,
               strip (decode_ignore (concat (map poll_bytes quiet) ++ line)))
    else await decode_ignore timeout start
           (concat (map poll_bytes quiet) ++ line) later.
Proof.
  intros Hq. rewrite (await_waiting timeout start quiet [] _ Hq).
  cbn [await app]. unfold is_terminal. cbn zeta.
  destruct (is_empty_bytes line) eqn:He; [|reflexivity].
  destruct line; [|discriminate]. now rewrite app_nil_r.
Qed.

(** C6.  With no open port, [send_gcode] prints the command and returns
    success at once.  With an open port, once the command is written
    and after any number of passes that read no terminal line within
    the timeout: a line that is [ok] (decoded, stripped) gives
    [(True, line)]; a line that starts with [error:] gives [(False, line)];
    a pass that reads no terminal line and ends after the timeout gives
    [(False, buffer)], the buffer being all the bytes read, decoded and
    stripped. *)
Theorem C6_send_gcode_outcomes (command : string) (timeout : float) (w : world) :
  (ser_is_open w = false ->
   send_gcode decode_ignore command timeout w
   = Some ((true, "Printed_to_console"),
           mkWorld (ser w) (log w ++ [Console command]) (opens w) (pending w)))
  /\
  (forall ex rest quiet line now later,
     ser_is_open w = true ->
     pending w = ex :: rest ->
     write_raise ex = None ->
     polls ex = quiet ++ Poll line now :: later ->
     Forall (waiting decode_ignore timeout (start_time ex)) quiet ->
     let decoded_line := strip (decode_ignore line) in
     let w' := mkWorld (ser w) (log w ++ [Wire command]) (opens w) rest in
     (line <> [] -> decoded_line = "ok" ->
      send_gcode decode_ignore command timeout w
      = Some ((true, decoded_line), w'))
     /\
     (line <> [] -> String.prefix "error:" decoded_line = true ->
      send_gcode decode_ignore command timeout w
      = Some ((false, decoded_line), w'))
     /\
     (is_terminal decode_ignore line = false ->
      F64.ltb timeout (F64.sub now (start_time ex)) = true ->
      send_gcode decode_ignore command timeout w
      = Some ((false,
               strip (decode_ignore (concat (map poll_bytes quiet) ++ line))),
              w'))).
Proof.
  split.
  - intros Hopen. unfold send_gcode. rewrite Hopen. reflexivity.
  - intros ex rest quiet line now later Hopen Hpend Hwrite Hpolls Hquiet
           decoded_line w'.
    assert (Hsend : send_gcode decode_ignore command timeout w
      = match await decode_ignore timeout (start_time ex) []
                (quiet ++ Poll line now :: later) with
        | Some r => Some (r, w')
        | None => None
        end).
    { unfold send_gcode, bind, next_exchange, record, exchange_result, wire_event.
      rewrite Hopen, Hpend, Hwrite, Hpolls. reflexivity. }
    rewrite Hsend, (await_then _ _ _ _ _ _ Hquiet). cbn zeta.
    fold decoded_line. unfold is_terminal. cbn zeta. fold decoded_line.
    repeat split.
    + intros Hne Hok. destruct line; [congruence|]. cbn [is_empty_bytes negb].
      rewrite Hok. reflexivity.
    + intros Hne Herr. destruct line; [congruence|]. cbn [is_empty_bytes negb].
      rewrite Herr, (prefix_error_not_ok _ Herr). reflexivity.
    + intros Hterm Htime. unfold is_terminal in Hterm. cbn zeta in Hterm.
      fold decoded_line in Hterm. rewrite Hterm, Htime. reflexivity.
Qed.

(** *** Sending on an open port *)

Lemma send_gcode_open command timeout w ex rest r :
  ser_is_open w = true ->
  pending w = ex :: rest ->
  exchange_result decode_ignore timeout ex = Some r ->
  send_gcode decode_ignore command timeout w
  = Some (r, mkWorld (ser w) (log w ++ [wire_event command ex]) (opens w) rest).
Proof.
  intros Hopen Hpend Hres. unfold send_gcode, bind, next_exchange, record.
  rewrite Hopen, Hpend, Hres. reflexivity.
Qed.

Lemma commands_app a b : commands (a ++ b) = commands a ++ commands b.
Proof. unfold commands. apply omap_app. Qed.

Lemma commands_wire cmds : forall exs,
  length exs = length cmds ->
  commands (zip_with wire_event cmds exs) = cmds.
Proof.
  induction cmds as [|c r IH]; intros [|ex exs] Hlen; try discriminate;
    [reflexivity|].
  cbn [zip_with]. unfold commands in *. cbn [omap].
  injection Hlen as Hlen.
  unfold wire_event at 1. destruct (write_raise ex); cbn; now rewrite IH.
Qed.

(** The setup loop stops at the first command that is not acknowledged. *)
Lemma init_loop_abort done : forall cmd rest exs_ok ex exs_rest resp w,
  ser_is_open w = true ->
  pending w = exs_ok ++ ex :: exs_rest ->
  length exs_ok = length done ->
  Forall (fun e => exists r,
            exchange_result decode_ignore (F64.of_Z 5) e = Some (true, r)) exs_ok ->
  exchange_result decode_ignore (F64.of_Z 5) ex = Some (false, resp) ->
  init_loop decode_ignore (done ++ cmd :: rest) w
  = Some (false,
          mkWorld (ser w)
            (log w ++ zip_with wire_event (done ++ [cmd]) (exs_ok ++ [ex]))
            (opens w) exs_rest).
Proof.
  induction done as [|d done IH];
    intros cmd rest exs_ok ex exs_rest resp w Hopen Hpend Hlen Hok Hfail.
  - destruct exs_ok; [|discriminate]. cbn [app] in *.
    cbn [init_loop]. unfold bind.
    rewrite (send_gcode_open _ _ _ _ _ _ Hopen Hpend Hfail). reflexivity.
  - destruct exs_ok as [|e exs_ok]; [discriminate|]. cbn [app] in *.
    apply Forall_cons in Hok as [[r Hr] Hok]. injection Hlen as Hlen.
    cbn [init_loop]. unfold bind.
    rewrite (send_gcode_open _ _ _ _ _ _ Hopen Hpend Hr). cbn [fst].
    rewrite (IH cmd rest exs_ok ex exs_rest resp); auto.
    cbn [ser log opens pending zip_with]. now rewrite <- app_assoc.
Qed.

(** C7.  When the port opens and a setup command is the first of
    [init_commands] that is not acknowledged (an [error:] line, a timeout
    or a failed write), the commands sent are those before it and
    itself, none of the later ones; the port is closed, [ser] is [None],
    and [init_grbl] returns [False] (in bypass it returns [True]). *)
Theorem C7_init_grbl_aborts (port : string) (w : world)
    (done : list string) (cmd : string) (rest : list string)
    (opens_rest : list open_outcome)
    (exs_ok : list exchange) (ex : exchange) (exs_rest : list exchange)
    (resp : string) :
  init_commands = done ++ cmd :: rest ->
  opens w = OpenOk :: opens_rest ->
  pending w = exs_ok ++ ex :: exs_rest ->
  length exs_ok = length done ->
  Forall (fun e => exists r,
            exchange_result decode_ignore (F64.of_Z 5) e = Some (true, r)) exs_ok ->
  exchange_result decode_ignore (F64.of_Z 5) ex = Some (false, resp) ->
  exists w',
    init_grbl decode_ignore (Some port) w = Some (false, w') /\
    ser w' = None /\
    log w' = log w ++ [Opened]
               ++ zip_with wire_event (done ++ [cmd]) (exs_ok ++ [ex])
               ++ [Closed] /\
    commands (log w') = commands (log w) ++ done ++ [cmd] /\
    pending w' = exs_rest.
Proof.
  intros Hcmds Hopens Hpend Hlen Hok Hfail.
  set (w1 := mkWorld (Some true) (log w ++ [Opened]) opens_rest (pending w)).
  assert (Hloop := init_loop_abort done cmd rest exs_ok ex exs_rest resp w1
                     eq_refl Hpend Hlen Hok Hfail).
  eexists. split.
  - unfold init_grbl, bind, next_open. rewrite Hopens. cbn [set_ser record].
    cbn [ser log opens pending]. fold w1. rewrite Hcmds, Hloop.
    unfold close_port, record, set_ser, ret. cbn [ser log opens pending].
    reflexivity.
  - cbn [ser log pending]. split; [reflexivity|].
    split; [subst w1; cbn [log]; now rewrite <- !app_assoc|].
    split; [|reflexivity]. subst w1. cbn [log].
    rewrite !commands_app, commands_wire
      by (rewrite !length_app, Hlen; reflexivity).
    cbn. rewrite ?app_nil_r, <- ?app_assoc. reflexivity.
Qed.

(** *** Every send delivers its command once *)

Lemma send_gcode_log command timeout w r w' :
  send_gcode decode_ignore command timeout w = Some (r, w') ->
  commands (log w') = commands (log w) ++ [command].
Proof.
  unfold send_gcode, bind, next_exchange, record, ret.
  destruct (ser_is_open w).
  - destruct (pending w) as [|ex rest]; [discriminate|].
    destruct (exchange_result decode_ignore timeout ex); [|discriminate].
    intros [= _ <-]. cbn [log]. rewrite commands_app.
    unfold wire_event. destruct (write_raise ex); reflexivity.
  - intros [= _ <-]. cbn [log]. now rewrite commands_app.
Qed.

Lemma send_program_log gcode_lines : forall success w w',
  send_program decode_ignore success gcode_lines w = Some (true, w') ->
  commands (log w') = commands (log w) ++ program_lines gcode_lines.
Proof.
  unfold program_lines.
  induction gcode_lines as [|line rest IH]; intros success w w';
    cbn [send_program map List.filter].
  - intros [= _ <-]. now rewrite app_nil_r.
  - destruct (negb (String.eqb (strip line) "")); [|apply IH].
    unfold bind.
    destruct (send_gcode decode_ignore (strip line) default_timeout w)
      as [[r w1]|] eqn:Hsend; [|discriminate].
    destruct (fst r); [|discriminate].
    intros H. rewrite (IH _ _ _ H), (send_gcode_log _ _ _ _ _ Hsend).
    now rewrite <- app_assoc.
Qed.

(** C8, as amended.  When the payload decodes, the connection check
    passes, letters are loaded, and the program of the payload is not
    empty and is executed with every command acknowledged: if the text
    ends with a line break, nothing is sent after the program; if it
    does not, the commands sent are the program's followed by exactly
    one [post_cmd]. *)
Theorem C8_trailing_command (cfg : config) (letters : gmap string Letter)
    (payload : list Byte.byte) (text : string) (w w1 w2 : world) :
  let program :=
    textToGcode text letters (LINE_LENGTH cfg) (LINE_SPACING cfg) (PADDING cfg) in
  decode_strict payload = Some text ->
  connect decode_ignore cfg w = Some (true, w1) ->
  no_letters letters = false ->
  program <> [] ->
  send_program decode_ignore true program w1 = Some (true, w2) ->
  commands (log w2) = commands (log w1) ++ program_lines program /\
  (endswith_newline text = true ->
   on_message decode_ignore decode_strict cfg letters payload w = Some (tt, w2))
  /\
  (endswith_newline text = false ->
   forall r w3,
     send_gcode decode_ignore post_cmd default_timeout w2 = Some (r, w3) ->
     on_message decode_ignore decode_strict cfg letters payload w = Some (tt, w3)
     /\ commands (log w3)
        = commands (log w1) ++ program_lines program ++ [post_cmd]).
Proof.
  intros program Hdec Hconn Hletters Hne Hrun.
  assert (Hlog := send_program_log _ _ _ _ Hrun).
  assert (Hproc : forall w',
    (if endswith_newline text then Some (tt, w2) else
       match send_gcode decode_ignore post_cmd default_timeout w2 with
       | Some (_, w3) => Some (tt, w3)
       | None => None
       end) = w' ->
    on_message decode_ignore decode_strict cfg letters payload w = w').
  { intros w' <-. unfold on_message. rewrite Hdec.
    assert (Hp : process_text decode_ignore cfg letters text w1 =
      if endswith_newline text then Some (tt, w2) else
        match send_gcode decode_ignore post_cmd default_timeout w2 with
        | Some (_, w3) => Some (tt, w3)
        | None => None
        end).
    { unfold process_text. rewrite Hletters. fold program.
      destruct program as [|c p] eqn:Hprog; [congruence|].
      unfold bind at 1. rewrite Hrun.
      destruct (endswith_newline text); cbn [negb]; [reflexivity|].
      unfold bind, ret.
      destruct (send_gcode decode_ignore post_cmd default_timeout w2)
        as [[r w3]|]; reflexivity. }
    unfold connect in Hconn. destruct (negb (ser_is_open w)).
    - unfold bind. rewrite Hconn. exact Hp.
    - injection Hconn as <-. exact Hp. }
  split; [exact Hlog|]. split.
  - intros Hend. apply Hproc. now rewrite Hend.
  - intros Hend r w3 Hpost. split.
    + apply Hproc. now rewrite Hend, Hpost.
    + rewrite (send_gcode_log _ _ _ _ _ Hpost), Hlog. now rewrite <- app_assoc.
Qed.

End DriverFacts.

Lemma C6_send_gcode_outcomes_witness :
  send_gcode ascii_decode_ignore "G21" default_timeout world_bypass
  = Some ((true, "Printed_to_console"), mkWorld None [Console "G21"] [] [])
  /\
  send_gcode ascii_decode_ignore "G21" default_timeout (world_open [exchange_ok])
  = Some ((true, "ok"), mkWorld (Some true) [Wire "G21"] [] [])
  /\
  send_gcode ascii_decode_ignore "G21" default_timeout (world_open [exchange_error])
  = Some ((false, "error:20"), mkWorld (Some true) [Wire "G21"] [] [])
  /\
  send_gcode ascii_decode_ignore "G21" default_timeout (world_open [exchange_timeout])
  = Some ((false, "<Idle>"), mkWorld (Some true) [Wire "G21"] [] []).
Proof.
  split; [|split; [|split]].
  - apply (proj1 (C6_send_gcode_outcomes ascii_decode_ignore "G21"
                    default_timeout world_bypass)).
    reflexivity.
  - apply (proj1 (proj2 (C6_send_gcode_outcomes ascii_decode_ignore "G21"
                           default_timeout (world_open [exchange_ok]))
                    exchange_ok [] [Poll [] (F64.of_Z 101)]
                    (bytes_of ("ok" ++ crlf)) (F64.of_Z 101) []
                    eq_refl eq_refl eq_refl eq_refl
                    ltac:(constructor; [split; reflexivity | constructor])));
      [discriminate | reflexivity].
  - apply (proj1 (proj2 (proj2 (C6_send_gcode_outcomes ascii_decode_ignore "G21"
                           default_timeout (world_open [exchange_error]))
                    exchange_error [] [Poll [] (F64.of_Z 101)]
                    (bytes_of ("error:20" ++ crlf)) (F64.of_Z 101) []
                    eq_refl eq_refl eq_refl eq_refl
                    ltac:(constructor; [split; reflexivity | constructor]))));
      [discriminate | reflexivity].
  - apply (proj2 (proj2 (proj2 (C6_send_gcode_outcomes ascii_decode_ignore "G21"
                           default_timeout (world_open [exchange_timeout]))
                    exchange_timeout []
                    [Poll (bytes_of ("<Idle>" ++ crlf)) (F64.of_Z 101)]
                    [] (F64.of_Z 103) []
                    eq_refl eq_refl eq_refl eq_refl
                    ltac:(constructor; [split; reflexivity | constructor]))));
      reflexivity.
Defined.

Lemma C7_init_grbl_aborts_witness :
  exists w',
    init_grbl ascii_decode_ignore (Some "/dev/ttyUSB0") world_setup = Some (false, w') /\
    ser w' = None /\
    log w' = [Opened; Wire "G21"; Wire "G90"; Wire "G17"; Closed] /\
    commands (log w') = ["G21"; "G90"; "G17"] /\
    pending w' = [exchange_ok].
Proof.
  apply (C7_init_grbl_aborts ascii_decode_ignore "/dev/ttyUSB0" world_setup
           ["G21"; "G90"] "G17"
           ["G94"; "M05 S1000"; "M03"; "M05"; "G10 P0 L20 X0"; "G10 P0 L20 Y0";
            "G0 Z5"; "G0 X0 Y0"; "G0 Z0"]
           [] [exchange_ok; exchange_ok] exchange_error [exchange_ok] "error:20");
    try reflexivity.
  constructor; [exists "ok"; reflexivity|].
  constructor; [exists "ok"; reflexivity|]. constructor.
Defined.

Lemma C8_trailing_command_witness :
  let payload_A := bytes_of "A" in
  let payload_A_nl := bytes_of (String "A" (String newline "")) in
  let sent :=
    [Console "M03 S150"; Console "G1 F1500.0 X0.00 Y0.00";
     Console "G1 F1500.0 X5.00 Y10.00"; Console "M05 F1500.0";
     Console "G0 F1000.0 X7.00 Y0.00"] in
  on_message ascii_decode_ignore ascii_decode_strict config_bypass letters_A
    payload_A world_bypass
  = Some (tt, mkWorld None (sent ++ [Console post_cmd]) [] [])
  /\
  on_message ascii_decode_ignore ascii_decode_strict config_bypass letters_A
    payload_A_nl world_bypass
  = Some (tt, mkWorld None
                (sent ++ [Console "G0 F1500 X0.00 Y-8.00"; Console "M04";
                          Console "M05"]) [] []).
Proof.
  cbn zeta. split.
  - apply (proj2 (proj2 (C8_trailing_command ascii_decode_ignore ascii_decode_strict
             config_bypass letters_A (bytes_of "A") "A"
             world_bypass world_bypass
             (mkWorld None
                [Console "M03 S150"; Console "G1 F1500.0 X0.00 Y0.00";
                 Console "G1 F1500.0 X5.00 Y10.00"; Console "M05 F1500.0";
                 Console "G0 F1000.0 X7.00 Y0.00"] [] [])
             eq_refl eq_refl eq_refl ltac:(discriminate) eq_refl))
           eq_refl (true, "Printed_to_console")).
    reflexivity.
  - apply (proj1 (proj2 (C8_trailing_command ascii_decode_ignore ascii_decode_strict
             config_bypass letters_A
             (bytes_of (String "A" (String newline "")))
             (String "A" (String newline ""))
             world_bypass world_bypass
             (mkWorld None
                [Console "M03 S150"; Console "G1 F1500.0 X0.00 Y0.00";
                 Console "G1 F1500.0 X5.00 Y10.00"; Console "M05 F1500.0";
                 Console "G0 F1000.0 X7.00 Y0.00";
                 Console "G0 F1500 X0.00 Y-8.00"; Console "M04"; Console "M05"]
                [] [])
             eq_refl eq_refl eq_refl ltac:(discriminate) eq_refl))).
    reflexivity.
Defined.

(** C8, as stated, fails: the text of one blank is found in the table
    and compiles to the empty program, whose execution has nothing to
    fail on; the text does not end with a line break, and yet
    [on_message] returns at its test for an empty program and sends
    nothing, no [post_cmd] either. *)
Lemma C8_counterexample :
  let text := " " in
  let program :=
    textToGcode text builtin_letters (LINE_LENGTH config_bypass)
      (LINE_SPACING config_bypass) (PADDING config_bypass) in
  ascii_decode_strict (bytes_of text) = Some text /\
  connect ascii_decode_ignore config_bypass world_bypass
  = Some (true, world_bypass) /\
  no_letters builtin_letters = false /\
  program = [] /\
  send_program ascii_decode_ignore true program world_bypass
  = Some (true, world_bypass) /\
  endswith_newline text = false /\
  on_message ascii_decode_ignore ascii_decode_strict config_bypass
    builtin_letters (bytes_of text) world_bypass
  = Some (tt, world_bypass) /\
  log world_bypass = [] /\
  ~ (forall r w3,
       send_gcode ascii_decode_ignore post_cmd default_timeout world_bypass
       = Some (r, w3) ->
       on_message ascii_decode_ignore ascii_decode_strict config_bypass
         builtin_letters (bytes_of text) world_bypass
       = Some (tt, w3) /\
       commands (log w3)
       = commands (log world_bypass) ++ program_lines program ++ [post_cmd]).
Proof.
  cbn zeta. repeat split; try reflexivity.
  intros H.
  destruct (H (true, "Printed_to_console")
              (mkWorld None [Console post_cmd] [] []) eq_refl) as [Hm _].
  vm_compute in Hm. discriminate Hm.
Qed.

(* ================================================================== *)
(** * Properties of the template reader *)

Section ReaderFacts.

(** *** The order of binary64 numbers *)

Lemma ltb_nan_r x : F64.ltb x S754_nan = false.
Proof. destruct x as [| | |[] ? ?]; reflexivity. Qed.

Lemma ltb_nan_l x : F64.ltb S754_nan x = false.
Proof. reflexivity. Qed.

Lemma ltb_key x y :
  F64.is_nan x = false -> F64.is_nan y = false ->
  (F64.ltb x y = true <-> key_lt (float_key x) (float_key y)).
Proof.
  unfold F64.ltb, SFltb, key_lt.
  destruct x as [sx|sx| |sx mx ex], y as [sy|sy| |sy my ey];
    try discriminate; intros _ _;
    try (destruct sx); try (destruct sy); cbn -[Z.compare Z.lt Z.opp];
    try (split; [discriminate | intros H; lia]);
    try (split; [intros _; lia | reflexivity]).
  - (* both negative *)
    change (Pos.compare_cont Eq mx my) with (mx ?= my)%positive.
    destruct (Z.compare_spec ex ey); [|split; [discriminate|lia]|split; [intros _; lia|reflexivity]].
    destruct (Pos.compare_spec mx my); cbn;
      (split; [try discriminate; intros _; lia | try reflexivity; intros ?; lia]).
  - (* both positive *)
    change (Pos.compare_cont Eq mx my) with (mx ?= my)%positive.
    destruct (Z.compare_spec ex ey); [|split; [intros _; lia|reflexivity]|split; [discriminate|lia]].
    destruct (Pos.compare_spec mx my); cbn;
      (split; [try discriminate; intros _; lia | try reflexivity; intros ?; lia]).
Qed.

Lemma ltb_irrefl x : F64.ltb x x = false.
Proof.
  destruct (F64.is_nan x) eqn:Hn; [destruct x; try discriminate; reflexivity|].
  destruct (F64.ltb x x) eqn:Hlt; [|reflexivity].
  apply (ltb_key x x Hn Hn) in Hlt. unfold key_lt in Hlt.
  destruct (float_key x) as [[a b] c]. lia.
Qed.

(** If [x] is not above [m] and [m'] is above [m], [x] is not above [m']. *)
Lemma ltb_max_step x m m' :
  F64.ltb m x = false -> F64.ltb m m' = true -> F64.ltb m' x = false.
Proof.
  intros Hx Hm.
  destruct (F64.is_nan x) eqn:Hnx;
    [destruct x; try discriminate; apply ltb_nan_r|].
  destruct (F64.is_nan m) eqn:Hnm; [destruct m; discriminate|].
  destruct (F64.is_nan m') eqn:Hnm';
    [destruct m'; try discriminate; now rewrite ltb_nan_r in Hm|].
  destruct (F64.ltb m' x) eqn:Hlt; [|reflexivity].
  apply (ltb_key _ _ Hnm Hnm') in Hm. apply (ltb_key _ _ Hnm' Hnx) in Hlt.
  assert (Hmx : key_lt (float_key m) (float_key x)).
  { unfold key_lt in *. destruct (float_key m) as [[? ?] ?],
      (float_key m') as [[? ?] ?], (float_key x) as [[? ?] ?]. lia. }
  apply (ltb_key _ _ Hnm Hnx) in Hmx. congruence.
Qed.

(** If [x] is not below [m] and [m'] is below [m], [x] is not below [m']. *)
Lemma ltb_min_step x m m' :
  F64.ltb x m = false -> F64.ltb m' m = true -> F64.ltb x m' = false.
Proof.
  intros Hx Hm.
  destruct (F64.is_nan x) eqn:Hnx; [destruct x; try discriminate; reflexivity|].
  destruct (F64.is_nan m) eqn:Hnm;
    [destruct m; try discriminate; now rewrite ltb_nan_r in Hm|].
  destruct (F64.is_nan m') eqn:Hnm'; [destruct m'; discriminate|].
  destruct (F64.ltb x m') eqn:Hlt; [|reflexivity].
  apply (ltb_key _ _ Hnm' Hnm) in Hm. apply (ltb_key _ _ Hnx Hnm') in Hlt.
  assert (Hxm : key_lt (float_key x) (float_key m)).
  { unfold key_lt in *. destruct (float_key m) as [[? ?] ?],
      (float_key m') as [[? ?] ?], (float_key x) as [[? ?] ?]. lia. }
  apply (ltb_key _ _ Hnx Hnm) in Hxm. congruence.
Qed.

(** *** [max] and [min] *)

Lemma py_max_fold rest : forall seen m,
  In m seen -> (forall x, In x seen -> F64.ltb m x = false) ->
  let hi := fold_left (fun m i => if F64.ltb m i then i else m) rest m in
  In hi (seen ++ rest) /\ forall x, In x (seen ++ rest) -> F64.ltb hi x = false.
Proof.
  induction rest as [|i rest IH]; intros seen m Hin Hub; cbn zeta; cbn [fold_left].
  - rewrite app_nil_r. auto.
  - replace (seen ++ i :: rest) with ((seen ++ [i]) ++ rest)
      by now rewrite <- app_assoc.
    apply IH.
    + destruct (F64.ltb m i); apply in_or_app; [right; now left | now left].
    + intros x Hx. apply in_app_or in Hx as [Hx | [<- | []]].
      * destruct (F64.ltb m i) eqn:Hmi; [|now apply Hub].
        apply (ltb_max_step x m i); [now apply Hub | exact Hmi].
      * destruct (F64.ltb m i) eqn:Hmi; [apply ltb_irrefl | exact Hmi].
Qed.

Lemma py_min_fold rest : forall seen m,
  In m seen -> (forall x, In x seen -> F64.ltb x m = false) ->
  let lo := fold_left (fun m i => if F64.ltb i m then i else m) rest m in
  In lo (seen ++ rest) /\ forall x, In x (seen ++ rest) -> F64.ltb x lo = false.
Proof.
  induction rest as [|i rest IH]; intros seen m Hin Hlb; cbn zeta; cbn [fold_left].
  - rewrite app_nil_r. auto.
  - replace (seen ++ i :: rest) with ((seen ++ [i]) ++ rest)
      by now rewrite <- app_assoc.
    apply IH.
    + destruct (F64.ltb i m); apply in_or_app; [right; now left | now left].
    + intros x Hx. apply in_app_or in Hx as [Hx | [<- | []]].
      * destruct (F64.ltb i m) eqn:Hmi; [|now apply Hlb].
        apply (ltb_min_step x m i); [now apply Hlb | exact Hmi].
      * destruct (F64.ltb i m) eqn:Hmi; [apply ltb_irrefl | exact Hmi].
Qed.

Lemma py_max_spec first rest :
  In (py_max first rest) (first :: rest) /\
  forall x, In x (first :: rest) -> F64.ltb (py_max first rest) x = false.
Proof.
  apply (py_max_fold rest [first] first); [now left|].
  intros x [<- | []]. apply ltb_irrefl.
Qed.

Lemma py_min_spec first rest :
  In (py_min first rest) (first :: rest) /\
  forall x, In x (first :: rest) -> F64.ltb x (py_min first rest) = false.
Proof.
  apply (py_min_fold rest [first] first); [now left|].
  intros x [<- | []]. apply ltb_irrefl.
Qed.

(** *** [strip] *)

Lemma rstrip_cons c t :
  rstrip (String c t) =
  match rstrip t with
  | EmptyString => if is_space c then EmptyString else String c EmptyString
  | r' => String c r'
  end.
Proof. reflexivity. Qed.

Lemma rstrip_idem s : rstrip (rstrip s) = rstrip s.
Proof.
  induction s as [|c r IH]; [reflexivity|]. rewrite rstrip_cons.
  destruct (rstrip r) as [|c' r'] eqn:Hr.
  - destruct (is_space c) eqn:Hc; [reflexivity|].
    rewrite rstrip_cons. cbn [rstrip]. now rewrite Hc.
  - rewrite rstrip_cons, IH. reflexivity.
Qed.

Lemma lstrip_head s :
  match lstrip s with
  | EmptyString => True
  | String c _ => is_space c = false
  end.
Proof.
  induction s as [|c r IH]; cbn [lstrip]; [exact I|].
  destruct (is_space c) eqn:Hc; [exact IH | exact Hc].
Qed.

Lemma lstrip_rstrip s :
  match s with EmptyString => True | String c _ => is_space c = false end ->
  lstrip (rstrip s) = rstrip s.
Proof.
  destruct s as [|c r]; [reflexivity|]. intros Hc. cbn [rstrip].
  destruct (rstrip r); rewrite ?Hc; cbn [lstrip]; now rewrite Hc.
Qed.

Lemma strip_idem s : strip (strip s) = strip s.
Proof.
  unfold strip. rewrite (lstrip_rstrip _ (lstrip_head s)). apply rstrip_idem.
Qed.

Lemma Instr_of_line_strip line : Instr_of_line (strip line) = Instr_of_line line.
Proof. unfold Instr_of_line. now rewrite strip_idem. Qed.

Lemma Instr_of_line_blank line : strip line = "" -> Instr_of_line line = None.
Proof. intros H. unfold Instr_of_line. now rewrite H. Qed.

(** *** The loop of [Letter] *)

Lemma fold_letter_line lines : forall acc,
  fold_left letter_line lines acc = acc ++ omap Instr_of_line lines.
Proof.
  induction lines as [|l r IH]; intros acc; cbn [fold_left];
    [cbn; now rewrite app_nil_r|].
  change (omap Instr_of_line (l :: r))
    with (match Instr_of_line l with
          | Some y => y :: omap Instr_of_line r
          | None => omap Instr_of_line r
          end).
  rewrite IH. unfold letter_line. rewrite Instr_of_line_strip.
  destruct (String.eqb (strip l) "") eqn:Hb; cbn [negb].
  - apply String.eqb_eq in Hb. rewrite (Instr_of_line_blank l Hb). reflexivity.
  - destruct (Instr_of_line l); [now rewrite <- app_assoc | reflexivity].
Qed.

Lemma Instr_of_line_comment line :
  String.prefix "(" (strip line) = true \/ String.prefix "%" (strip line) = true ->
  Instr_of_line line = None.
Proof.
  intros H. unfold Instr_of_line.
  destruct H as [-> | ->]; now rewrite ?orb_true_r.
Qed.

End ReaderFacts.

(** C5.  The instructions of [Letter(data)] are the lines of the file
    that [Instr] accepts, in order.  Without instruction the width is
    0.0; otherwise it is [hi - lo] for two of the x coordinates, [hi]
    one that no coordinate compares greater than and [lo] one that no
    coordinate compares less than.  A file whose lines are all blank,
    comments, control markers or rejected has no instruction and width
    0.0. *)
Theorem C5_letter_width (data : string) :
  let l := Letter_of_string data in
  let xs := map instr_x (instructions l) in
  instructions l = omap Instr_of_line (split_lines data) /\
  match xs with
  | [] => width l = F64.zero
  | _ :: _ =>
      exists hi lo,
        In hi xs /\ In lo xs /\
        (forall x, In x xs -> F64.ltb hi x = false /\ F64.ltb x lo = false) /\
        width l = F64.sub hi lo
  end /\
  ((forall line, In line (split_lines data) ->
      strip line = "" \/
      String.prefix "(" (strip line) = true \/
      String.prefix "%" (strip line) = true \/
      Instr_of_line line = None) ->
   instructions l = [] /\ width l = F64.zero).
Proof.
  cbn zeta.
  assert (Hi : instructions (Letter_of_string data)
               = omap Instr_of_line (split_lines data)).
  { unfold Letter_of_string. cbn [instructions]. now rewrite fold_letter_line. }
  split; [exact Hi|].
  unfold Letter_of_string in *. cbn [instructions width] in *.
  set (ins := fold_left letter_line (split_lines data) []) in *.
  split.
  - destruct (map instr_x ins) as [|first rest]; [reflexivity|].
    destruct (py_max_spec first rest) as [Hin_hi Hhi].
    destruct (py_min_spec first rest) as [Hin_lo Hlo].
    exists (py_max first rest), (py_min first rest).
    repeat split; auto.
  - intros Hall.
    assert (Hnone : omap Instr_of_line (split_lines data) = []).
    { clear Hi ins. induction (split_lines data) as [|line r IH]; [reflexivity|].
      change (omap Instr_of_line (line :: r))
        with (match Instr_of_line line with
              | Some y => y :: omap Instr_of_line r
              | None => omap Instr_of_line r
              end).
      assert (Hl : Instr_of_line line = None).
      { destruct (Hall line (or_introl eq_refl)) as [H | [H | [H | H]]];
          auto using Instr_of_line_blank, Instr_of_line_comment. }
      rewrite Hl. apply IH. intros l' Hl'. apply Hall. now right. }
    rewrite Hi, Hnone. auto.
Qed.

Lemma C5_letter_width_witness :
  instructions (Letter_of_string template_void) = [] /\
  width (Letter_of_string template_void) = F64.zero /\
  map Instr_repr (instructions (Letter_of_string template_three))
  = ["G0 X1.00 Y1.00"; "G1 X6.50 Y2.00"; "G1 X-2.00 Y0.00"] /\
  fmt2 (width (Letter_of_string template_three)) = "8.50".
Proof.
  destruct (C5_letter_width template_void) as (_ & _ & Hvoid).
  destruct (C5_letter_width template_three) as (Hins & _ & _).
  assert (Hv : instructions (Letter_of_string template_void) = [] /\
               width (Letter_of_string template_void) = F64.zero).
  { apply Hvoid. intros line Hin. vm_compute in Hin.
    repeat (destruct Hin as [<- | Hin]; [vm_compute; tauto|]). destruct Hin. }
  destruct Hv as [Hv1 Hv2].
  split; [exact Hv1|]. split; [exact Hv2|].
  split; [rewrite Hins|]; reflexivity.
Defined.

(* ================================================================== *)
(** * Printing and reading numbers *)

Section NumberFacts.

Lemma sapp_nil_l (b : string) : ("" ++ b)%string = b.
Proof. reflexivity. Qed.

Lemma sapp_cons x (a b : string) :
  (String x a ++ b)%string = String x (a ++ b)%string.
Proof. reflexivity. Qed.

Lemma sapp_assoc (a b c : string) : ((a ++ b) ++ c = a ++ (b ++ c))%string.
Proof.
  induction a as [|x a IH]; [reflexivity|]. rewrite !sapp_cons. now f_equal.
Qed.

Lemma sapp_nil_r (a : string) : (a ++ "")%string = a.
Proof.
  induction a as [|x a IH]; [reflexivity|]. rewrite sapp_cons. now f_equal.
Qed.

Lemma digit_cases d :
  0 <= d < 10 ->
  d = 0 \/ d = 1 \/ d = 2 \/ d = 3 \/ d = 4 \/ d = 5 \/ d = 6 \/ d = 7 \/ d = 8 \/ d = 9.
Proof. lia. Qed.

Ltac each_digit H :=
  apply digit_cases in H;
  repeat (destruct H as [-> | H]); [..| subst].

Lemma digit_value_digit_of d : 0 <= d < 10 -> digit_value (digit_of d) = Some d.
Proof. intros H. each_digit H; reflexivity. Qed.

Lemma scan_digits_digit d rest acc cnt :
  0 <= d < 10 ->
  scan_digits (String (digit_of d) rest) acc cnt
  = scan_digits rest (10 * acc + d) (cnt + 1).
Proof. intros H. cbn [scan_digits]. now rewrite digit_value_digit_of. Qed.

Lemma decimal_digits_S f n :
  decimal_digits (S f) n
  = ((if (n <? 10)%Z then "" else decimal_digits f (n / 10)%Z)
     ++ String (digit_of (n mod 10)%Z) "")%string.
Proof. reflexivity. Qed.

Lemma scan_decimal_digits f : forall n acc cnt rest,
  0 <= n < 10 ^ Z.of_nat (S f) ->
  exists k, 1 <= k /\
    scan_digits (decimal_digits (S f) n ++ rest)%string acc cnt
    = scan_digits rest (acc * 10 ^ k + n) (cnt + k).
Proof.
  induction f as [|f IH]; intros n acc cnt rest Hn.
  - exists 1. split; [lia|].
    change (10 ^ Z.of_nat 1) with 10 in Hn.
    rewrite decimal_digits_S. destruct (Z.ltb_spec n 10); [|lia].
    rewrite sapp_nil_l, sapp_cons, sapp_nil_l, scan_digits_digit by (apply Z.mod_pos_bound; lia).
    rewrite Z.mod_small by lia. f_equal; lia.
  - rewrite decimal_digits_S. destruct (Z.ltb_spec n 10).
    + exists 1. split; [lia|].
      rewrite sapp_nil_l, sapp_cons, sapp_nil_l, scan_digits_digit
        by (apply Z.mod_pos_bound; lia).
      rewrite Z.mod_small by lia. f_equal; lia.
    + assert (Hq : 0 <= n / 10 < 10 ^ Z.of_nat (S f)).
      { split; [apply Z.div_pos; lia|].
        apply Z.div_lt_upper_bound; [lia|].
        replace (Z.of_nat (S (S f))) with (1 + Z.of_nat (S f)) in Hn by lia.
        rewrite Z.pow_add_r in Hn by lia. lia. }
      destruct (IH (n / 10) acc cnt
                  (String (digit_of (n mod 10)) rest) Hq) as (k & Hk & Hscan).
      exists (k + 1). split; [lia|].
      rewrite sapp_assoc, sapp_cons, sapp_nil_l.
      rewrite Hscan, scan_digits_digit by (apply Z.mod_pos_bound; lia).
      rewrite Z.pow_add_r by lia.
      f_equal; [|lia]. change (10 ^ 1) with 10.
      transitivity (acc * (10 ^ k * 10) + (10 * (n / 10) + n mod 10));
        [ring | now rewrite <- Z.div_mod by lia].
Qed.

Lemma pow10_log2 n : 0 <= n -> n < 10 ^ Z.of_nat (S (Z.to_nat (Z.log2 n))).
Proof.
  intros Hn. rewrite Nat2Z.inj_succ, Z2Nat.id by apply Z.log2_nonneg.
  destruct (Z.eq_dec n 0) as [-> | Hne]; [reflexivity|].
  apply Z.lt_le_trans with (2 ^ Z.succ (Z.log2 n)).
  - apply Z.log2_spec. lia.
  - apply Z.pow_le_mono_l. pose proof (Z.log2_nonneg n). lia.
Qed.

Lemma scan_decimal_of_Z n acc cnt rest :
  0 <= n ->
  exists k, 1 <= k /\
    scan_digits (decimal_of_Z n ++ rest)%string acc cnt
    = scan_digits rest (acc * 10 ^ k + n) (cnt + k).
Proof.
  intros Hn. unfold decimal_of_Z. apply scan_decimal_digits.
  split; [exact Hn | now apply pow10_log2].
Qed.

(** *** The count of hundredths *)

Lemma hundredths_nonneg m e : 0 <= hundredths m e.
Proof.
  unfold hundredths. destruct (Z.leb_spec 0 e).
  - pose proof (Z.pow_nonneg 2 e ltac:(lia)). nia.
  - cbn zeta. assert (Hd : 0 < 2 ^ (- e)) by (apply Z.pow_pos_nonneg; lia).
    assert (Hq : 0 <= Z.pos m * 100 / 2 ^ (- e)) by (apply Z.div_pos; lia).
    destruct (2 * ((Z.pos m * 100) mod 2 ^ (- e)) ?= 2 ^ (- e)); try lia.
    destruct (Z.even _); lia.
Qed.


(** *** Reading a printed number *)

Lemma parse_decimal_fixed2 n : 0 <= n -> parse_decimal (fixed2 n) = Some (n, -2).
Proof.
  intros Hn. unfold parse_decimal, fixed2.
  assert (Hq : 0 <= n / 100) by (apply Z.div_pos; lia).
  assert (H1 : 0 <= n mod 100 / 10 < 10).
  { pose proof (Z.mod_pos_bound n 100 ltac:(lia)).
    split; [apply Z.div_pos; lia | apply Z.div_lt_upper_bound; lia]. }
  assert (H0 : 0 <= n mod 10 < 10) by (apply Z.mod_pos_bound; lia).
  destruct (scan_decimal_of_Z (n / 100) 0 0
              (String "." (String (digit_of (n mod 100 / 10))
                             (String (digit_of (n mod 10)) ""))) Hq)
    as (k & Hk & ->).
  cbn [scan_digits]. change (digit_value ".") with (@None Z). cbn iota.
  rewrite !scan_digits_digit by assumption. cbn [scan_digits].
  destruct (Z.eqb_spec (0 + k + (0 + 1 + 1)) 0); [lia|].
  assert (Hm : 10 * (10 * (0 * 10 ^ k + n / 100) + n mod 100 / 10) + n mod 10 = n).
  { assert (Hmod : n mod 10 = (n mod 100) mod 10).
    { rewrite (Z.div_mod n 100) at 1 by lia.
      replace (100 * (n / 100) + n mod 100)
        with (n mod 100 + (10 * (n / 100)) * 10) by ring.
      apply Z.mod_add. lia. }
    pose proof (Z.div_mod n 100 ltac:(lia)) as Hn100.
    pose proof (Z.div_mod (n mod 100) 10 ltac:(lia)) as Hr10.
    rewrite Hmod, Z.mul_0_l.
    set (q := n / 100) in *. set (r := n mod 100) in *.
    set (r1 := r / 10) in *. set (r0 := r mod 10) in *. lia. }
  rewrite Hm. reflexivity.
Qed.

Lemma string_forall_app p a b :
  string_forall p (a ++ b)%string = string_forall p a && string_forall p b.
Proof.
  induction a as [|c a IH]; [reflexivity|].
  rewrite sapp_cons. cbn [string_forall]. now rewrite IH, andb_assoc.
Qed.

Lemma string_forall_impl (p q : ascii -> bool) s :
  (forall c, p c = true -> q c = true) ->
  string_forall p s = true -> string_forall q s = true.
Proof.
  intros Hpq. induction s as [|c r IH]; cbn [string_forall]; [auto|].
  intros [Hc Hr]%andb_true_iff. rewrite (Hpq c Hc), (IH Hr). reflexivity.
Qed.

Lemma is_digit_digit_of d : 0 <= d < 10 -> is_digit (digit_of d) = true.
Proof. intros H. unfold is_digit. now rewrite digit_value_digit_of. Qed.

Lemma decimal_digits_digits fuel : forall n,
  0 <= n -> string_forall is_digit (decimal_digits fuel n) = true.
Proof.
  induction fuel as [|f IH]; intros n Hn; [reflexivity|].
  rewrite decimal_digits_S, string_forall_app. cbn [string_forall].
  rewrite is_digit_digit_of by (apply Z.mod_pos_bound; lia).
  destruct (n <? 10); [reflexivity|].
  rewrite IH by (apply Z.div_pos; lia). reflexivity.
Qed.

Lemma decimal_digits_nonempty f n : decimal_digits (S f) n <> "".
Proof.
  rewrite decimal_digits_S.
  destruct (if n <? 10 then "" else decimal_digits f (n / 10)); discriminate.
Qed.

Lemma fmt_char_digit c : is_digit c = true -> fmt_char c = true.
Proof. intros H. unfold fmt_char. now rewrite H. Qed.

Lemma fixed2_chars n : 0 <= n -> string_forall fmt_char (fixed2 n) = true.
Proof.
  intros Hn. unfold fixed2. rewrite string_forall_app. cbn [string_forall].
  assert (H1 : 0 <= n mod 100 / 10 < 10).
  { pose proof (Z.mod_pos_bound n 100 ltac:(lia)).
    split; [apply Z.div_pos; lia | apply Z.div_lt_upper_bound; lia]. }
  change (fmt_char ".") with true.
  rewrite (fmt_char_digit (digit_of (n mod 100 / 10)))
    by now apply is_digit_digit_of.
  rewrite (fmt_char_digit (digit_of (n mod 10)))
    by (apply is_digit_digit_of, Z.mod_pos_bound; lia).
  rewrite (string_forall_impl is_digit fmt_char _ fmt_char_digit)
    by (apply decimal_digits_digits, Z.div_pos; lia).
  reflexivity.
Qed.

Lemma fmt2_chars x : string_forall fmt_char (fmt2 x) = true.
Proof.
  destruct x as [[]|[]| |s m e]; try reflexivity.
  cbn [fmt2]. rewrite string_forall_app, fixed2_chars by apply hundredths_nonneg.
  destruct s; reflexivity.
Qed.

Lemma fmt2_nonempty x : fmt2 x <> "".
Proof.
  destruct x as [[]|[]| |s m e]; try discriminate.
  cbn [fmt2]. destruct s; [discriminate|]. rewrite sapp_nil_l.
  unfold fixed2, decimal_of_Z. rewrite decimal_digits_S.
  destruct (if _ <? 10 then _ else _); discriminate.
Qed.

(** *** The characters of a printed number *)

Ltac each_ascii c :=
  destruct c as [[] [] [] [] [] [] [] []].

Lemma fmt_char_plain c :
  fmt_char c = true ->
  Ascii.eqb c "_" = false /\ Ascii.eqb c " " = false /\
  is_space c = false /\ is_float_space c = false.
Proof. each_ascii c; vm_compute; intros H; (discriminate H || auto). Qed.

Lemma scan_sign_digit c r :
  is_digit c = true -> scan_sign (String c r) = (false, String c r).
Proof. each_ascii c; vm_compute; intros H; (discriminate H || reflexivity). Qed.

Lemma drop_underscores_plain s : forall prev,
  string_forall fmt_char s = true ->
  match prev with Some c => Ascii.eqb "_" c = false | None => True end ->
  drop_underscores prev s = Some s.
Proof.
  induction s as [|c r IH]; intros prev Hs Hprev; cbn [drop_underscores].
  - destruct prev as [p|]; [now rewrite Hprev | reflexivity].
  - cbn [string_forall] in Hs. apply andb_true_iff in Hs as [Hc Hr].
    destruct (fmt_char_plain c Hc) as (Hu & _). rewrite Hu.
    assert (Hp : match prev with Some c0 => Ascii.eqb "_" c0 | None => false end
                 = false) by (destruct prev; auto).
    rewrite Hp. cbn [andb].
    rewrite IH; [reflexivity | exact Hr | now rewrite Ascii.eqb_sym].
Qed.

Lemma lstrip_float_plain s :
  string_forall fmt_char s = true -> lstrip_float s = s.
Proof.
  destruct s as [|c r]; [reflexivity|]. cbn [string_forall lstrip_float].
  intros [Hc _]%andb_true_iff.
  destruct (fmt_char_plain c Hc) as (_ & _ & _ & ->). reflexivity.
Qed.

Lemma rstrip_float_plain s :
  string_forall fmt_char s = true -> rstrip_float s = s.
Proof.
  induction s as [|c r IH]; [reflexivity|]. cbn [string_forall rstrip_float].
  intros [Hc Hr]%andb_true_iff. rewrite (IH Hr).
  destruct (fmt_char_plain c Hc) as (_ & _ & _ & ->). now destruct r.
Qed.

Lemma fixed2_head n :
  0 <= n -> exists c r, fixed2 n = String c r /\ is_digit c = true.
Proof.
  intros Hn. unfold fixed2, decimal_of_Z.
  pose proof (decimal_digits_nonempty (Z.to_nat (Z.log2 (n / 100))) (n / 100)) as Hne.
  pose proof (decimal_digits_digits (S (Z.to_nat (Z.log2 (n / 100)))) (n / 100)
                ltac:(apply Z.div_pos; lia)) as Hd.
  destruct (decimal_digits _ _) as [|c r]; [congruence|].
  cbn [string_forall] in Hd. apply andb_true_iff in Hd as [Hc _].
  rewrite sapp_cons. eauto.
Qed.

(** Reading the ['%.2f'] text of a number gives the number rounded to
    hundredths. *)
Lemma py_float_fmt2 x : py_float (fmt2 x) = Some (round2 x).
Proof.
  destruct x as [[]|[]| |s m e]; try reflexivity.
  unfold py_float.
  rewrite drop_underscores_plain by (apply fmt2_chars || exact I).
  rewrite lstrip_float_plain, rstrip_float_plain by apply fmt2_chars.
  cbn [fmt2 round2].
  pose proof (hundredths_nonneg m e) as Hn.
  assert (Hsign : scan_sign (sign_text s ++ fixed2 (hundredths m e))%string
                  = (s, fixed2 (hundredths m e))).
  { destruct s; [reflexivity|]. rewrite sapp_nil_l.
    destruct (fixed2_head _ Hn) as (c & r & -> & Hc). now apply scan_sign_digit. }
  rewrite Hsign, parse_decimal_fixed2 by exact Hn. reflexivity.
Qed.

(** *** Reading a printed instruction *)

Lemma rstrip_plain s : string_forall fmt_char s = true -> rstrip s = s.
Proof.
  induction s as [|c r IH]; [reflexivity|]. rewrite rstrip_cons.
  cbn [string_forall]. intros [Hc Hr]%andb_true_iff. rewrite (IH Hr).
  destruct (fmt_char_plain c Hc) as (_ & _ & -> & _). now destruct r.
Qed.

Lemma rstrip_keep a : forall b,
  b <> "" -> rstrip b = b -> rstrip (a ++ b)%string = (a ++ b)%string.
Proof.
  induction a as [|c a IH]; intros b Hne Hb; [exact Hb|].
  rewrite sapp_cons, rstrip_cons, (IH b Hne Hb).
  destruct (a ++ b)%string eqn:Hab; [|reflexivity].
  destruct a; [now rewrite sapp_nil_l in Hab | discriminate Hab].
Qed.

Lemma split_on_piece sep a : forall b,
  string_forall (fun c => negb (Ascii.eqb c sep)) a = true ->
  split_on sep (a ++ String sep b)%string = a :: split_on sep b.
Proof.
  induction a as [|c a IH]; intros b Ha.
  - rewrite sapp_nil_l. cbn [split_on]. now rewrite Ascii.eqb_refl.
  - cbn [string_forall] in Ha. apply andb_true_iff in Ha as [Hc Ha].
    rewrite sapp_cons. cbn [split_on].
    apply negb_true_iff in Hc. rewrite Hc, (IH b Ha). reflexivity.
Qed.

Lemma split_on_whole sep a :
  string_forall (fun c => negb (Ascii.eqb c sep)) a = true ->
  split_on sep a = [a].
Proof.
  induction a as [|c a IH]; [reflexivity|]. cbn [string_forall split_on].
  intros [Hc Ha]%andb_true_iff. apply negb_true_iff in Hc.
  now rewrite Hc, (IH Ha).
Qed.

Lemma fmt_no_space s :
  string_forall fmt_char s = true ->
  string_forall (fun c => negb (Ascii.eqb c " ")) s = true.
Proof.
  apply string_forall_impl. intros c Hc.
  destruct (fmt_char_plain c Hc) as (_ & -> & _). reflexivity.
Qed.

Lemma Instr_repr_shape i :
  Instr_repr i
  = ((String "G" (String (type_digit (instr_type i)) ""))
     ++ String " " ((String "X" (fmt2 (instr_x i)))
     ++ String " " (String "Y" (fmt2 (instr_y i)))))%string.
Proof. destruct i as [[] x y]; reflexivity. Qed.

Lemma Instr_of_line_repr i :
  Instr_of_line (Instr_repr i)
  = Some (mkInstr (instr_type i) (round2 (instr_x i)) (round2 (instr_y i))).
Proof.
  pose proof (fmt2_chars (instr_x i)) as Hx.
  pose proof (fmt2_chars (instr_y i)) as Hy.
  pose proof (fmt2_nonempty (instr_x i)) as Hxn.
  pose proof (fmt2_nonempty (instr_y i)) as Hyn.
  assert (Hstrip : strip (Instr_repr i) = Instr_repr i).
  { unfold strip.
    assert (Hl : lstrip (Instr_repr i) = Instr_repr i)
      by (rewrite Instr_repr_shape; reflexivity).
    rewrite Hl.
    replace (Instr_repr i)
      with ((String "G" (String (type_digit (instr_type i))
               (String " " (String "X" (fmt2 (instr_x i) ++ " Y"))))
             ++ fmt2 (instr_y i))%string).
    - apply rstrip_keep; [exact Hyn | now apply rstrip_plain].
    - rewrite Instr_repr_shape, !sapp_cons, sapp_nil_l. do 4 f_equal.
      rewrite sapp_assoc. reflexivity. }
  unfold Instr_of_line. rewrite Hstrip.
  rewrite Instr_repr_shape at 1 2 3.
  rewrite !sapp_cons, sapp_nil_l.
  cbn [String.eqb String.prefix orb].
  destruct (ascii_dec "(" "G") as [Hc|_]; [discriminate Hc|].
  destruct (ascii_dec "%" "G") as [Hc|_]; [discriminate Hc|].
  rewrite Instr_repr_shape.
  rewrite split_on_piece by (destruct i as [[] ? ?]; reflexivity).
  rewrite split_on_piece
    by (cbn [string_forall]; rewrite fmt_no_space by exact Hx; reflexivity).
  rewrite split_on_whole
    by (cbn [string_forall]; rewrite fmt_no_space by exact Hy; reflexivity).
  cbn [String.length String.get Nat.leb andb Ascii.eqb Bool.eqb drop_first].
  rewrite !py_float_fmt2.
  destruct (fmt2 (instr_x i)) as [|cx rx] eqn:Ex; [congruence|].
  destruct (fmt2 (instr_y i)) as [|cy ry] eqn:Ey; [congruence|].
  destruct i as [[] x y]; reflexivity.
Qed.

End NumberFacts.

(* ================================================================== *)
(** * Reading a decimal with two fractional digits *)

Section RoundingFacts.

























End RoundingFacts.




(* ================================================================== *)
(** * Further properties of the compiler *)

Section CompilerMore.

Lemma char_step_irrelevant letters padding st c :
  relevant letters c = false -> char_step letters padding st c = st.
Proof.
  unfold relevant, resolved, char_step. intros H.
  apply orb_false_iff in H as [_ H].
  destruct (letters !! String c ""); [discriminate|reflexivity].
Qed.

Lemma fold_chars_relevant letters padding line : forall st,
  fold_left (char_step letters padding)
    (list_ascii_of_string (filter_string (relevant letters) line)) st
  = fold_left (char_step letters padding) (list_ascii_of_string line) st.
Proof.
  induction line as [|c r IH]; intros st; [reflexivity|].
  cbn [filter_string list_ascii_of_string fold_left].
  destruct (relevant letters c) eqn:Hc.
  - cbn [list_ascii_of_string fold_left]. apply IH.
  - rewrite (char_step_irrelevant _ _ _ _ Hc). apply IH.
Qed.

Lemma split_on_filter sep p s :
  p sep = true ->
  split_on sep (filter_string p s) = map (filter_string p) (split_on sep s).
Proof.
  intros Hsep. induction s as [|c r IH]; [reflexivity|].
  cbn [filter_string split_on].
  destruct (Ascii.eqb_spec c sep) as [->|Hne].
  - rewrite Hsep. cbn [split_on]. rewrite Ascii.eqb_refl, IH. reflexivity.
  - pose proof (split_on_nonempty sep r) as Hr.
    destruct (split_on sep r) as [|h t] eqn:Hs; [congruence|].
    destruct (p c) eqn:Hp.
    + cbn [split_on]. destruct (Ascii.eqb_spec c sep); [congruence|].
      rewrite IH. cbn [map filter_string]. now rewrite Hp.
    + rewrite IH. cbn [map filter_string]. now rewrite Hp.
Qed.

Lemma fold_lines_relevant letters line_spacing padding lines : forall st,
  fold_left (line_step letters line_spacing padding)
    (map (filter_string (relevant letters)) lines) st
  = fold_left (line_step letters line_spacing padding) lines st.
Proof.
  induction lines as [|l r IH]; intros st; [reflexivity|].
  cbn [map fold_left]. rewrite IH. f_equal.
  unfold line_step. apply fold_chars_relevant.
Qed.

End CompilerMore.

(** X1.  The program depends only on the line breaks of the text and on
    the characters that are keys of the table: a text and the text
    without its other characters compile to the same program. *)
Theorem X1_unknown_characters_ignored (text : string)
    (letters : gmap string Letter) (line_length line_spacing padding : float) :
  textToGcode (filter_string (relevant letters) text) letters
              line_length line_spacing padding
  = textToGcode text letters line_length line_spacing padding.
Proof.
  unfold textToGcode, compile_state, split_lines.
  rewrite split_on_filter
    by (unfold relevant; now rewrite Ascii.eqb_refl).
  now rewrite fold_lines_relevant.
Qed.

Lemma split_lines_newline s :
  has_newline s = true -> (2 <= length (split_lines s))%nat.
Proof.
  unfold has_newline, split_lines.
  induction s as [|c r IH]; cbn [existsb list_ascii_of_string split_on];
    [discriminate|].
  rewrite (Ascii.eqb_sym newline c).
  pose proof (split_on_nonempty newline r) as Hne.
  destruct (Ascii.eqb c newline); cbn [orb].
  - intros _. destruct (split_on newline r); [congruence | cbn; lia].
  - intros H. specialize (IH H).
    destruct (split_on newline r); [congruence | exact IH].
Qed.

Lemma char_step_undrawn letters padding st c :
  tidy st -> drawn letters c = false ->
  output (char_step letters padding st c) = output st.
Proof.
  intros (Hp & _) Hd. unfold drawn in Hd. unfold char_step.
  destruct (letters !! String c "") as [ld|]; [|reflexivity].
  rewrite letter_step_output, Hp.
  destruct (instructions ld); [apply app_nil_r | discriminate].
Qed.

Lemma fold_char_step_undrawn letters padding cs : forall st,
  tidy st ->
  length (filter (fun c => drawn letters c = true) cs) = 0%nat ->
  output (fold_left (char_step letters padding) cs st) = output st.
Proof.
  induction cs as [|c r IH]; intros st Ht Hn; [reflexivity|].
  cbn [fold_left]. rewrite filter_cons in Hn.
  destruct (decide (drawn letters c = true)) as [Hd|Hd]; [discriminate Hn|].
  apply not_true_is_false in Hd.
  rewrite IH; [now apply char_step_undrawn | now apply tidy_char_step | exact Hn].
Qed.

(** X2.  The program is empty exactly when the text has no line break
    and none of its characters has a letter with instructions. *)
Theorem X2_empty_program (text : string) (letters : gmap string Letter)
    (line_length line_spacing padding : float) :
  textToGcode text letters line_length line_spacing padding = [] <->
  has_newline text = false /\ count_chars (drawn letters) text = 0%nat.
Proof.
  split.
  - intros Hout.
    assert (Hnl : has_newline text = false).
    { destruct (has_newline text) eqn:Hnl; [|reflexivity].
      pose proof (split_lines_newline text Hnl) as Hlen.
      pose proof (compile_state_brackets text letters line_spacing padding) as Hb.
      unfold textToGcode in Hout. rewrite Hout in Hb. cbn in Hb. lia. }
    split; [exact Hnl|].
    unfold textToGcode, compile_state in Hout.
    rewrite (split_lines_no_newline text Hnl) in Hout. cbn [fold_left] in Hout.
    unfold line_step in Hout.
    pose proof (fold_char_step_advances letters padding
                  (list_ascii_of_string text)
                  (start_line line_spacing init_state)) as Ha.
    rewrite Hout in Ha. unfold count_chars. cbn in Ha. lia.
  - intros [Hnl Hn]. unfold textToGcode, compile_state.
    rewrite (split_lines_no_newline text Hnl). cbn [fold_left].
    unfold line_step. rewrite fold_char_step_undrawn; [reflexivity | | exact Hn].
    apply tidy_start_line, tidy_init.
Qed.

(** *** Commands have nothing to strip *)

Lemma clean_constant c r :
  strip (String c r) = String c r -> clean (String c r).
Proof. intros H. split; [exact H | discriminate]. Qed.

Lemma clean_xy c p x y :
  is_space c = false -> clean (String c p ++ xy_text x y)%string.
Proof.
  intros Hc. split; [|rewrite sapp_cons; discriminate].
  unfold strip. rewrite sapp_cons. cbn [lstrip]. rewrite Hc.
  rewrite <- sapp_cons. unfold xy_text.
  replace (String c p ++ " X" ++ fmt2 x ++ " Y" ++ fmt2 y)%string
    with ((String c p ++ " X" ++ fmt2 x ++ " Y") ++ fmt2 y)%string
    by (rewrite !sapp_assoc; reflexivity).
  apply rstrip_keep; [apply fmt2_nonempty | apply rstrip_plain, fmt2_chars].
Qed.

Lemma clean_segments cx cy s :
  Forall clean (concat (map (segment_cmds cx cy) s)).
Proof.
  induction s as [|[i|run] s IH]; cbn [map concat]; [constructor| |];
    apply Forall_app; split; try exact IH; cbn [segment_cmds].
  - constructor; [|constructor]. now apply clean_xy.
  - apply Forall_app. split; [constructor; [|constructor]; now apply clean_constant|].
    apply Forall_app. split; [|constructor; [|constructor]; now apply clean_constant].
    induction run as [|i r IHr]; cbn [map]; constructor; [|exact IHr].
    now apply clean_xy.
Qed.

Lemma clean_letter_step padding st ld :
  Forall clean (output st) -> Forall clean (output (letter_step padding st ld)).
Proof.
  intros H. rewrite letter_step_output. apply Forall_app. split; [exact H|].
  destruct (instructions ld) as [|i r].
  - destruct (pen_is_down st); constructor; [|constructor].
    now apply clean_constant.
  - unfold letter_cmds. apply Forall_app. split; [apply clean_segments|].
    constructor; [|constructor]. now apply clean_xy.
Qed.

Lemma clean_start_line line_spacing st :
  Forall clean (output st) -> Forall clean (output (start_line line_spacing st)).
Proof.
  intros H. rewrite start_line_output. apply Forall_app. split; [exact H|].
  destruct (first_line st); [constructor|].
  apply Forall_app. split.
  - destruct (pen_is_down st); constructor; [|constructor].
    now apply clean_constant.
  - constructor; [now apply clean_xy|].
    constructor; [now apply clean_constant|].
    constructor; [now apply clean_constant | constructor].
Qed.

Lemma boundary_clean letters line_spacing padding st :
  boundary letters line_spacing padding st -> Forall clean (output st).
Proof.
  induction 1 as [|st Hb IH|st c Hb IH].
  - constructor.
  - now apply clean_start_line.
  - unfold char_step. destruct (letters !! String c ""); [|exact IH].
    now apply clean_letter_step.
Qed.

Lemma program_lines_clean cmds : Forall clean cmds -> program_lines cmds = cmds.
Proof.
  unfold program_lines. induction 1 as [|c r [Hs Hne] Hr IH]; [reflexivity|].
  cbn [map List.filter]. rewrite Hs.
  destruct (String.eqb_spec c ""); [congruence|]. cbn [negb]. now rewrite IH.
Qed.

(** X3.  No command of a program is blank or has white space at either
    end, so the lines [on_message] sends after [strip] and its test for
    blank lines are the program itself, command for command. *)
Theorem X3_program_sent_as_compiled (text : string) (letters : gmap string Letter)
    (line_length line_spacing padding : float) :
  let program := textToGcode text letters line_length line_spacing padding in
  Forall clean program /\ program_lines program = program.
Proof.
  cbn zeta.
  assert (H : Forall clean
                (textToGcode text letters line_length line_spacing padding))
    by apply (boundary_clean letters line_spacing padding), boundary_compile_state.
  split; [exact H | now apply program_lines_clean].
Qed.

(** *** Line breaks *)

Lemma split_on_app sep a : forall b,
  split_on sep (a ++ String sep b)%string = split_on sep a ++ split_on sep b.
Proof.
  induction a as [|c r IH]; intros b.
  - rewrite sapp_nil_l. cbn [split_on]. now rewrite Ascii.eqb_refl.
  - rewrite sapp_cons. cbn [split_on]. rewrite IH.
    pose proof (split_on_nonempty sep r) as Hne.
    destruct (Ascii.eqb c sep); [reflexivity|].
    destruct (split_on sep r); [congruence | reflexivity].
Qed.

Lemma fold_char_step_y letters padding cs : forall st,
  current_y (fold_left (char_step letters padding) cs st) = current_y st.
Proof.
  induction cs as [|c r IH]; intros st; cbn [fold_left]; [reflexivity|].
  rewrite IH. unfold char_step.
  destruct (letters !! String c ""); [apply letter_step_frame | reflexivity].
Qed.

Lemma line_step_y letters line_spacing padding st l :
  current_y (line_step letters line_spacing padding st l)
  = if first_line st then current_y st
    else F64.sub (current_y st) line_spacing.
Proof.
  unfold line_step. rewrite fold_char_step_y. unfold start_line, pen_up_if_down.
  destruct (first_line st); [reflexivity|].
  cbn [pen_is_down set_x set_y]. destruct (pen_is_down st); reflexivity.
Qed.

Lemma fold_line_step_y letters line_spacing padding ls : forall st n,
  first_line st = false -> current_y st = line_y line_spacing n ->
  let st' := fold_left (line_step letters line_spacing padding) ls st in
  first_line st' = false /\ current_y st' = line_y line_spacing (n + length ls).
Proof.
  induction ls as [|l r IH]; intros st n Hf Hy; cbn zeta; cbn [fold_left length].
  - rewrite Nat.add_0_r. auto.
  - destruct (line_step_brackets letters line_spacing padding st l) as [Hf' _].
    replace (n + S (length r))%nat with (S n + length r)%nat by lia.
    apply IH; [exact Hf'|].
    rewrite line_step_y, Hf, Hy. reflexivity.
Qed.

Lemma compile_state_y text letters line_spacing padding :
  let st := compile_state text letters line_spacing padding in
  first_line st = false /\
  current_y st = line_y line_spacing (length (split_lines text) - 1).
Proof.
  cbn zeta. unfold compile_state.
  pose proof (split_lines_nonempty text) as Hne.
  destruct (split_lines text) as [|l r]; [congruence|]. cbn [fold_left length].
  destruct (line_step_brackets letters line_spacing padding init_state l) as [Hf _].
  replace (S (length r) - 1)%nat with (0 + length r)%nat by lia.
  apply fold_line_step_y; [exact Hf|].
  rewrite line_step_y. reflexivity.
Qed.

(** X4.  A line break at the end of a text adds to the program of the
    text the rapid move to the start of the next line, at x = 0 and at
    the line spacing subtracted from 0 once per line of the text, then
    [M04] and [M05], and nothing else. *)
Theorem X4_trailing_line_break (text : string) (letters : gmap string Letter)
    (line_length line_spacing padding : float) :
  textToGcode (text ++ String newline "") letters line_length line_spacing padding
  = textToGcode text letters line_length line_spacing padding
    ++ [G0_line F64.zero (line_y line_spacing (length (split_lines text)));
        M04; M05].
Proof.
  unfold textToGcode, compile_state at 1, split_lines at 1.
  rewrite split_on_app, fold_left_app. cbn [split_on fold_left].
  fold (split_lines text). fold (compile_state text letters line_spacing padding).
  destruct (compile_state_y text letters line_spacing padding) as [Hf Hy].
  destruct (boundary_tidy _ _ _ _
              (boundary_compile_state text letters line_spacing padding))
    as (Hp & _).
  unfold line_step. cbn [list_ascii_of_string fold_left].
  rewrite start_line_output, Hf, Hp, Hy. cbn [app].
  pose proof (split_lines_nonempty text) as Hne.
  destruct (split_lines text) as [|l r]; [congruence|].
  cbn [length]. replace (S (length r) - 1)%nat with (length r) by lia.
  reflexivity.
Qed.

(** *** The length of a program *)

Lemma length_segment_cmds cx cy s :
  length (concat (map (segment_cmds cx cy) s))
  = (length (concat (map segment_instrs s)) + 2 * length (List.filter is_run s))%nat.
Proof.
  induction s as [|[i|run] s IH]; cbn [map concat List.filter is_run];
    [reflexivity| |]; rewrite !length_app, IH; cbn [segment_cmds segment_instrs].
  - cbn [length]. lia.
  - rewrite !length_app, length_map. cbn [length]. lia.
Qed.

Lemma length_letter_cmds cx cy l :
  length (letter_cmds cx cy false l) = (length l + 2 * draw_runs l)%nat.
Proof.
  unfold letter_cmds, draw_runs.
  now rewrite length_segment_cmds, segments_flatten.
Qed.

Lemma length_char_step letters padding st c :
  tidy st ->
  length (output (char_step letters padding st c))
  = (length (output st) + char_cost letters c)%nat.
Proof.
  intros (Hp & _). unfold char_step, char_cost.
  destruct (letters !! String c "") as [ld|]; [|lia].
  rewrite letter_step_output, Hp, length_app.
  destruct (instructions ld) as [|i r]; [reflexivity|].
  rewrite length_app, length_letter_cmds. cbn [length]. lia.
Qed.

Lemma list_sum_cons x l : list_sum (x :: l) = (x + list_sum l)%nat.
Proof. reflexivity. Qed.

Lemma list_sum_nil : list_sum [] = 0%nat.
Proof. reflexivity. Qed.

Lemma length_fold_char_step letters padding cs : forall st,
  tidy st ->
  length (output (fold_left (char_step letters padding) cs st))
  = (length (output st) + list_sum (map (char_cost letters) cs))%nat.
Proof.
  induction cs as [|c r IH]; intros st Ht; cbn [fold_left map];
    [rewrite list_sum_nil; lia|].
  rewrite IH by now apply tidy_char_step.
  rewrite length_char_step by exact Ht. rewrite list_sum_cons. lia.
Qed.

Lemma tidy_fold_char_step letters padding cs : forall st,
  tidy st -> tidy (fold_left (char_step letters padding) cs st).
Proof.
  induction cs as [|c r IH]; intros st Ht; [exact Ht|].
  cbn [fold_left]. now apply IH, tidy_char_step.
Qed.

Lemma length_line_step letters line_spacing padding st l :
  tidy st ->
  length (output (line_step letters line_spacing padding st l))
  = (length (output st) + (if first_line st then 0 else 3)
     + line_cost letters l)%nat.
Proof.
  intros Ht. unfold line_step, line_cost.
  rewrite length_fold_char_step by now apply tidy_start_line.
  rewrite start_line_output, length_app. destruct Ht as (Hp & _). rewrite Hp.
  destruct (first_line st); cbn [length app]; lia.
Qed.

Lemma length_fold_line_step letters line_spacing padding ls : forall st,
  tidy st -> first_line st = false ->
  length (output (fold_left (line_step letters line_spacing padding) ls st))
  = (length (output st) + 3 * length ls
     + list_sum (map (line_cost letters) ls))%nat.
Proof.
  induction ls as [|l r IH]; intros st Ht Hf; cbn [fold_left map length];
    rewrite ?list_sum_nil, ?list_sum_cons; [lia|].
  destruct (line_step_brackets letters line_spacing padding st l) as [Hf' _].
  rewrite IH; [|unfold line_step; now apply tidy_fold_char_step, tidy_start_line
               |exact Hf'].
  rewrite length_line_step, Hf by exact Ht. lia.
Qed.

(** X5.  The number of commands of a program is three for every line
    after the first and, for every character whose letter has
    instructions, one per instruction, two per run of write
    instructions and one for the advance. *)
Theorem X5_program_length (text : string) (letters : gmap string Letter)
    (line_length line_spacing padding : float) :
  length (textToGcode text letters line_length line_spacing padding)
  = text_cost letters text.
Proof.
  unfold textToGcode, compile_state, text_cost.
  pose proof (split_lines_nonempty text) as Hne.
  destruct (split_lines text) as [|l r]; [congruence|].
  cbn [fold_left map length]. rewrite list_sum_cons.
  destruct (line_step_brackets letters line_spacing padding init_state l) as [Hf _].
  rewrite length_fold_line_step;
    [|unfold line_step; apply tidy_fold_char_step, tidy_start_line, tidy_init
     |exact Hf].
  rewrite length_line_step by apply tidy_init. cbn [first_line init_state output length].
  lia.
Qed.

(** *** Translation *)

Lemma F64_add_comm a b : F64.add a b = F64.add b a.
Proof.
  unfold F64.add.
  destruct a as [sa|sa| |sa ma ea], b as [sb|sb| |sb mb eb];
    try reflexivity; try (destruct sa, sb; reflexivity).
  cbn [SFadd]. now rewrite Z.min_comm, Z.add_comm.
Qed.

(** X6.  [Instr.translated(x, y)] keeps the motion class, and its
    coordinates are the absolute coordinates [textToGcode] writes for
    the instruction with the cursor at [(x, y)]: the step adds to the
    program a pen command when the pen has to change, then the move
    to the translated point.  [Letter.translated] keeps the width and
    the motion classes. *)
Theorem X6_translated_is_the_offset (st : cstate) (i : Instr) (l : Letter)
    (dx dy : float) :
  let t := Instr_translated i (current_x st) (current_y st) in
  instr_type t = instr_type i /\
  output (instr_step st i)
  = output st
    ++ match instr_type i, pen_is_down st with
       | move, true => [M05_F]
       | write, false => [M03]
       | _, _ => []
       end
    ++ [match instr_type i with
        | move => G0_move (instr_x t) (instr_y t)
        | write => G1_draw (instr_x t) (instr_y t)
        end] /\
  width (Letter_translated l dx dy) = width l /\
  map instr_type (instructions (Letter_translated l dx dy))
  = map instr_type (instructions l).
Proof.
  cbn zeta. split; [reflexivity|]. split.
  - unfold instr_step, Instr_translated. cbn [instr_x instr_y].
    rewrite (F64_add_comm (instr_x i)), (F64_add_comm (instr_y i)).
    destruct (instr_type i), (pen_is_down st); cbn [negb output emit set_pen];
      rewrite <- ?app_assoc; reflexivity.
  - split; [reflexivity|].
    unfold Letter_translated. cbn [instructions]. rewrite map_map.
    apply map_ext. reflexivity.
Qed.

(* ================================================================== *)
(** * Further properties of the template reader *)

Lemma omap_Instr_app a b :
  omap Instr_of_line (a ++ b) = omap Instr_of_line a ++ omap Instr_of_line b.
Proof. apply omap_app. Qed.

Lemma Instr_repr_one_line i : one_line (Instr_repr i).
Proof.
  assert (Hf : forall x,
    string_forall (fun c => negb (Ascii.eqb c newline)) (fmt2 x) = true).
  { intros x. apply (string_forall_impl fmt_char); [|apply fmt2_chars].
    intros c Hc. destruct (fmt_char_plain c Hc) as (_ & _ & Hs & _).
    destruct (Ascii.eqb_spec c newline) as [->|]; [discriminate Hs|reflexivity]. }
  unfold one_line. rewrite Instr_repr_shape, !string_forall_app.
  cbn [string_forall]. rewrite !string_forall_app. cbn [string_forall].
  rewrite !Hf. destruct (instr_type i); reflexivity.
Qed.

Lemma split_join_lines rs :
  rs <> [] -> Forall one_line rs -> split_lines (join_lines rs) = rs.
Proof.
  unfold split_lines. induction rs as [|x r IH]; [congruence|].
  intros _ Hall. apply Forall_cons in Hall as [Hx Hr].
  destruct r as [|y r'].
  - cbn [join_lines]. now apply split_on_whole.
  - change (join_lines (x :: y :: r'))
      with (x ++ String newline (join_lines (y :: r')))%string.
    rewrite split_on_app, (split_on_whole _ _ Hx), IH by (congruence || exact Hr).
    reflexivity.
Qed.

Lemma omap_Instr_reprs l :
  omap Instr_of_line (map Instr_repr l) = map reread l.
Proof.
  induction l as [|i r IH]; [reflexivity|]. cbn [map].
  change (omap Instr_of_line (Instr_repr i :: map Instr_repr r))
    with (match Instr_of_line (Instr_repr i) with
          | Some y => y :: omap Instr_of_line (map Instr_repr r)
          | None => omap Instr_of_line (map Instr_repr r)
          end).
  now rewrite Instr_of_line_repr, IH.
Qed.

(** X7.  Reading the printed form of a letter gives back its
    instructions, each with its motion class and with both coordinates
    rounded to hundredths, in the same order; a letter without
    instructions prints as one line break and reads back as a letter
    without instructions and of width 0.0. *)
Theorem X7_letter_round_trip (l : Letter) :
  instructions (Letter_of_string (Letter_repr l)) = map reread (instructions l) /\
  (instructions l = [] ->
   Letter_repr l = String newline "" /\
   Letter_of_string (Letter_repr l) = mkLetter [] F64.zero).
Proof.
  assert (H : instructions (Letter_of_string (Letter_repr l))
              = map reread (instructions l)).
  { unfold Letter_of_string. cbn [instructions].
    rewrite fold_letter_line. cbn [app]. unfold Letter_repr, split_lines.
    rewrite split_on_app. cbn [split_on]. rewrite omap_Instr_app.
    change (omap Instr_of_line [""]) with (@nil Instr). rewrite app_nil_r.
    destruct (instructions l) as [|i r] eqn:Hl; [reflexivity|].
    fold (split_lines (join_lines (map Instr_repr (i :: r)))).
    rewrite split_join_lines; [apply omap_Instr_reprs | discriminate |].
    clear Hl. induction (i :: r) as [|j q IHq]; constructor;
      [apply Instr_repr_one_line | exact IHq]. }
  split; [exact H|]. intros Hl. unfold Letter_repr. rewrite Hl.
  split; reflexivity.
Qed.

Lemma X7_letter_round_trip_witness :
  Letter_repr (mkLetter [] (F64.of_Z 4)) = String newline "" /\
  Letter_of_string (Letter_repr (mkLetter [] (F64.of_Z 4))) = mkLetter [] F64.zero.
Proof.
  apply (proj2 (X7_letter_round_trip (mkLetter [] (F64.of_Z 4)))). reflexivity.
Defined.

(** X8.  The instructions read from two files joined by a line break
    are the instructions of the first followed by those of the second. *)
Theorem X8_letter_of_joined_files (a b : string) :
  instructions (Letter_of_string (a ++ String newline b))
  = instructions (Letter_of_string a) ++ instructions (Letter_of_string b).
Proof.
  unfold Letter_of_string. cbn [instructions]. rewrite !fold_letter_line.
  cbn [app]. unfold split_lines. now rewrite split_on_app, omap_Instr_app.
Qed.

Lemma rstrip_app a : forall b,
  rstrip (a ++ b)%string
  = match rstrip b with
    | EmptyString => rstrip a
    | String _ _ => (a ++ rstrip b)%string
    end.
Proof.
  induction a as [|c a IH]; intros b.
  - rewrite sapp_nil_l. now destruct (rstrip b).
  - rewrite sapp_cons, !rstrip_cons, IH.
    destruct (rstrip b) as [|d r]; [reflexivity|].
    rewrite sapp_cons. now destruct a.
Qed.

Lemma strip_head s :
  match strip s with
  | EmptyString => True
  | String c _ => is_space c = false
  end.
Proof.
  unfold strip. pose proof (lstrip_head s) as H.
  destruct (lstrip s) as [|c t]; [exact I|]. rewrite rstrip_cons.
  destruct (rstrip t); [|exact H]. now rewrite H.
Qed.

Lemma strip_with_field c r extra :
  is_space c = false -> rstrip (String c r) = String c r ->
  strip (String c r ++ String " " extra)
  = match rstrip extra with
    | EmptyString => String c r
    | String _ _ => (String c r ++ String " " (rstrip extra))%string
    end.
Proof.
  intros Hc Hr. unfold strip. rewrite sapp_cons. cbn [lstrip]. rewrite Hc.
  rewrite <- sapp_cons, rstrip_app, rstrip_cons, Hr.
  now destruct (rstrip extra).
Qed.

(** X9.  Whatever follows the Y field of an accepted line is ignored:
    a line that is read as an instruction is read as the same
    instruction when a blank and any further text are put after it. *)
Theorem X9_fields_after_y_ignored (line extra : string) (i : Instr) :
  Instr_of_line line = Some i ->
  Instr_of_line (strip line ++ String " " extra) = Some i.
Proof.
  rewrite <- (Instr_of_line_strip line).
  pose proof (strip_head line) as Hh. pose proof (strip_idem line) as Hi.
  destruct (strip line) as [|c r] eqn:Hl; [discriminate|].
  assert (Hr : rstrip (String c r) = String c r).
  { rewrite <- Hl. unfold strip. apply rstrip_idem. }
  unfold Instr_of_line. rewrite Hi, (strip_with_field c r extra Hh Hr).
  destruct (rstrip extra) as [|d e]; [trivial|].
  rewrite split_on_app, sapp_cons.
  cbn [String.eqb String.prefix orb].
  assert (Hp : forall s, String.prefix "" s = true) by (now intros []).
  rewrite !Hp.
  destruct (ascii_dec "(" c), (ascii_dec "%" c);
    cbn [orb]; try discriminate.
  destruct (split_on " " (String c r)) as [|a0 [|a1 [|a2 rest]]];
    try discriminate.
  cbn [app]. trivial.
Qed.

Lemma X9_fields_after_y_ignored_witness :
  Instr_of_line (strip "G1 X1 Y2" ++ String " " "F300 (feed)")
  = Some (mkInstr write (F64.of_Z 1) (F64.of_Z 2)).
Proof.
  apply X9_fields_after_y_ignored. vm_compute. reflexivity.
Defined.

(* ================================================================== *)
(** * The table of letters *)

Lemma read_file_loaded t e :
  read_file t e = match loaded e with
                  | Some (k, l) => <[k := l]> t
                  | None => t
                  end.
Proof.
  destruct e as [name [data| |]]; unfold read_file, loaded;
    destruct (endswith (py_lower name) ".nc"); try reflexivity.
  cbn [andb]. now destruct (negb (data =? "")%string).
Qed.

Lemma fold_read_file_lookup files k : forall t,
  fold_left read_file files t !! k
  = match last (List.filter (has_key k) (omap loaded files)) with
    | Some p => Some (snd p)
    | None => t !! k
    end.
Proof.
  induction files as [|e r IH]; intros t; [reflexivity|].
  cbn [fold_left]. rewrite IH, read_file_loaded.
  change (omap loaded (e :: r))
    with (match loaded e with
          | Some y => y :: omap loaded r
          | None => omap loaded r
          end).
  destruct (loaded e) as [[k' l]|]; [|reflexivity].
  cbn [List.filter]. unfold has_key at 2. cbn [fst].
  destruct (String.eqb_spec k' k) as [->|Hne].
  - rewrite last_cons, lookup_insert_eq.
    now destruct (last (List.filter (has_key k) (omap loaded r))).
  - rewrite lookup_insert_ne by exact Hne. reflexivity.
Qed.

(** X10.  A path that is no directory gives no table.  Otherwise the
    table holds, under each key, the letter of the last file loaded
    under that key, and where no file was loaded under it, what the
    built-in table of blank and line break holds; files that do not end
    in .nc, cannot be read or are empty count for nothing. *)
Theorem X10_table_of_letters (files : list (string * file_read)) :
  readLetters None = None /\
  exists t, readLetters (Some files) = Some t /\
    (forall k,
       t !! k = match last (List.filter (has_key k) (omap loaded files)) with
                | Some p => Some (snd p)
                | None => builtin_letters !! k
                end) /\
    readLetters (Some (List.filter (fun e => bool_decide (is_Some (loaded e))) files))
    = Some t.
Proof.
  split; [reflexivity|]. eexists. split; [reflexivity|]. split.
  - intros k. apply fold_read_file_lookup.
  - unfold readLetters. f_equal. generalize builtin_letters.
    induction files as [|e r IH]; intros t; [reflexivity|].
    cbn [List.filter fold_left]. rewrite (read_file_loaded t e).
    destruct (loaded e) as [[k l]|] eqn:He.
    + rewrite bool_decide_eq_true_2 by (now eexists). cbn [fold_left].
      rewrite read_file_loaded, He. apply IH.
    + rewrite bool_decide_eq_false_2 by (intros [? ?]; discriminate). apply IH.
Qed.

Lemma py_lower_app a b : py_lower (a ++ b) = (py_lower a ++ py_lower b)%string.
Proof.
  induction a as [|c a IH]; [now rewrite !sapp_nil_l|].
  cbn [py_lower]. now rewrite !sapp_cons, <- IH.
Qed.

Lemma length_py_lower s : String.length (py_lower s) = String.length s.
Proof. induction s as [|c s IH]; [reflexivity|]. cbn. now rewrite IH. Qed.

Lemma length_sapp a b :
  String.length (a ++ b) = (String.length a + String.length b)%nat.
Proof.
  induction a as [|c a IH]; [now rewrite sapp_nil_l|].
  rewrite sapp_cons. cbn. now rewrite IH.
Qed.

Lemma substring_whole s : String.substring 0 (String.length s) s = s.
Proof. induction s as [|c s IH]; [reflexivity|]. cbn. now rewrite IH. Qed.

Lemma substring_app_right a b :
  String.substring (String.length a) (String.length b) (a ++ b) = b.
Proof.
  induction a as [|c a IH]; [rewrite sapp_nil_l; apply substring_whole|].
  rewrite sapp_cons. exact IH.
Qed.

Lemma substring_app_left a b :
  String.substring 0 (String.length a) (a ++ b) = a.
Proof.
  induction a as [|c a IH]; [rewrite sapp_nil_l; now destruct b|].
  rewrite sapp_cons. cbn. now rewrite IH.
Qed.

Lemma rfind_lower c s : -1 <= rfind c s.
Proof.
  induction s as [|d s IH]; cbn [rfind]; [lia|].
  destruct (Z.leb_spec 0 (rfind c s)); [lia|]. destruct (Ascii.eqb d c); lia.
Qed.

Lemma rfind_app c a : forall b,
  rfind c (a ++ b)
  = if 0 <=? rfind c b then Z.of_nat (String.length a) + rfind c b
    else rfind c a.
Proof.
  induction a as [|d a IH]; intros b.
  - rewrite sapp_nil_l. cbn [String.length rfind].
    destruct (Z.leb_spec 0 (rfind c b)); [lia|].
    pose proof (rfind_lower c b). lia.
  - rewrite sapp_cons. cbn [rfind String.length]. rewrite IH.
    destruct (Z.leb_spec 0 (rfind c b)); [|reflexivity].
    destruct (Z.leb_spec 0 (Z.of_nat (String.length a) + rfind c b)); lia.
Qed.

Lemma rfind_absent c s :
  string_forall (fun d => negb (Ascii.eqb d c)) s = true -> rfind c s = -1.
Proof.
  induction s as [|d s IH]; [reflexivity|]. cbn [string_forall rfind].
  intros [Hd Hs]%andb_true_iff. rewrite (IH Hs). cbn.
  now destruct (Ascii.eqb d c).
Qed.

Lemma py_lower_nc ext :
  py_lower ext = ".nc" ->
  String.length ext = 3%nat /\ rfind "." ext = 0 /\ rfind "/" ext = -1.
Proof.
  destruct ext as [|e0 [|e1 [|e2 [|e3 r]]]]; try discriminate.
  cbn [py_lower]. intros H. injection H as H0 H1 H2.
  assert (Hdot : forall c, py_lower_char c = "."%char -> c = "."%char).
  { intros c. destruct c as [[] [] [] [] [] [] [] []];
      vm_compute; congruence. }
  apply Hdot in H0. subst e0.
  assert (Hk : forall x c d, py_lower_char c = d ->
             py_lower_char x <> d -> Ascii.eqb c x = false).
  { intros x c d Hc Hx. destruct (Ascii.eqb_spec c x); congruence. }
  split; [reflexivity|]. cbn [rfind].
  rewrite (Hk "."%char e2 _ H2), (Hk "."%char e1 _ H1),
          (Hk "/"%char e2 _ H2), (Hk "/"%char e1 _ H1) by (vm_compute; congruence).
  split; reflexivity.
Qed.

Lemma endswith_lower_nc stem ext :
  py_lower ext = ".nc" -> endswith (py_lower (stem ++ ext)) ".nc" = true.
Proof.
  intros H. unfold endswith. rewrite py_lower_app, H, length_sapp.
  change (String.length ".nc") with 3%nat.
  replace (String.length (py_lower stem) + 3 - 3)%nat
    with (String.length (py_lower stem)) by lia.
  replace (3 <=? String.length (py_lower stem) + 3)%nat with true
    by (symmetry; apply Nat.leb_le; lia).
  change 3%nat with (String.length ".nc") at 1.
  now rewrite substring_app_right.
Qed.

Lemma splitext_root_nc stem ext :
  py_lower ext = ".nc" ->
  string_forall (fun c => negb (Ascii.eqb c "/")) stem = true ->
  splitext_root (stem ++ ext)
  = if string_forall (fun c => Ascii.eqb c ".") stem
    then (stem ++ ext)%string else stem.
Proof.
  intros Hext Hstem. destruct (py_lower_nc ext Hext) as (Hlen & Hdot & Hsep).
  unfold splitext_root. rewrite !rfind_app, Hdot, Hsep, (rfind_absent _ _ Hstem).
  cbn [Z.leb Z.compare]. rewrite Z.add_0_r.
  destruct (Z.ltb_spec (-1) (Z.of_nat (String.length stem))); [|lia].
  change (Z.to_nat (-1 + 1)) with 0%nat. rewrite Nat2Z.id, Nat.sub_0_r.
  now rewrite substring_app_left.
Qed.

(** X11.  A file whose name ends in .nc in either case and has no slash
    before that ending, with a text that is not empty, read after all
    others, gives the letter found under the name without the ending;
    under the whole name when only dots, or nothing, come before the
    ending. *)
Theorem X11_letter_of_file (files : list (string * file_read))
    (stem ext data : string) :
  py_lower ext = ".nc" ->
  string_forall (fun c => negb (Ascii.eqb c "/")) stem = true ->
  data <> "" ->
  exists t,
    readLetters (Some (files ++ [((stem ++ ext)%string, FileText data)])) = Some t /\
    t !! (if string_forall (fun c => Ascii.eqb c ".") stem
          then (stem ++ ext)%string else stem)
    = Some (Letter_of_string data).
Proof.
  intros Hext Hstem Hdata. eexists. split; [reflexivity|].
  rewrite fold_left_app. cbn [fold_left]. unfold read_file.
  rewrite (endswith_lower_nc stem ext Hext).
  destruct (String.eqb_spec data "") as [H|_]; [contradiction|]. cbn [negb].
  rewrite (splitext_root_nc stem ext Hext Hstem). apply lookup_insert_eq.
Qed.

Lemma X11_letter_of_file_witness :
  exists t,
    readLetters (Some ([("a.nc", FileFails)] ++ [(("A" ++ ".NC")%string, FileText "G1 X1 Y2")]))
    = Some t /\
    t !! "A" = Some (Letter_of_string "G1 X1 Y2").
Proof.
  apply (X11_letter_of_file [("a.nc", FileFails)] "A" ".NC" "G1 X1 Y2");
    [reflexivity | reflexivity | discriminate].
Defined.

(* ================================================================== *)
(** * Further properties of the driver *)

Section DriverMore.

Variable decode_ignore : list Byte.byte -> string.
Variable decode_strict : list Byte.byte -> option string.

Lemma await_success timeout start ps : forall buffer r,
  await decode_ignore timeout start buffer ps = Some (true, r) ->
  r = "ok" /\
  exists line now,
    In (Poll line now) ps /\ line <> [] /\ strip (decode_ignore line) = "ok".
Proof.
  induction ps as [|p ps IH]; intros buffer r; cbn [await]; [discriminate|].
  destruct p as [line now|e]; [|discriminate].
  destruct (negb (is_empty_bytes line) &&
            (String.eqb (strip (decode_ignore line)) "ok"
             || String.prefix "error:" (strip (decode_ignore line)))) eqn:Hterm.
  - intros [= Hok <-]. apply String.eqb_eq in Hok. split; [exact Hok|].
    exists line, now. split; [now left|]. split; [|exact Hok].
    destruct line; [discriminate Hterm | discriminate].
  - destruct (F64.ltb timeout (F64.sub now start)); [discriminate|].
    intros H. destruct (IH _ _ H) as (-> & l & n & Hin & Hne & Hs).
    split; [reflexivity|]. exists l, n. split; [now right|]. now split.
Qed.

Lemma send_gcode_cases command timeout w r w' :
  send_gcode decode_ignore command timeout w = Some (r, w') ->
  (ser_is_open w = false /\ r = (true, "Printed_to_console") /\
   w' = mkWorld (ser w) (log w ++ [Console command]) (opens w) (pending w))
  \/
  (ser_is_open w = true /\
   exists ex rest,
     pending w = ex :: rest /\
     exchange_result decode_ignore timeout ex = Some r /\
     w' = mkWorld (ser w) (log w ++ [wire_event command ex]) (opens w) rest).
Proof.
  unfold send_gcode, bind, next_exchange, record, ret.
  destruct (ser_is_open w).
  - destruct (pending w) as [|ex rest]; [discriminate|].
    destruct (exchange_result decode_ignore timeout ex) as [r0|] eqn:Hres;
      [|discriminate].
    intros [= <- <-]. right. split; [reflexivity|]. now exists ex, rest.
  - intros [= <- <-]. now left.
Qed.

(** X12.  [send_gcode] reports success in two cases only: no port is
    open, and the command went to the console; or the command was
    written to the open port without an exception and a line that is
    not empty and reads [ok] once decoded and stripped came back, and
    the response returned is [ok]. *)
Theorem X12_success_means_ok (command : string) (timeout : float)
    (w w' : world) (r : string) :
  send_gcode decode_ignore command timeout w = Some ((true, r), w') ->
  (ser_is_open w = false /\ r = "Printed_to_console" /\
   w' = mkWorld (ser w) (log w ++ [Console command]) (opens w) (pending w))
  \/
  (ser_is_open w = true /\ r = "ok" /\
   exists ex rest line now,
     pending w = ex :: rest /\
     w' = mkWorld (ser w) (log w ++ [Wire command]) (opens w) rest /\
     write_raise ex = None /\
     In (Poll line now) (polls ex) /\
     line <> [] /\ strip (decode_ignore line) = "ok").
Proof.
  intros H. destruct (send_gcode_cases _ _ _ _ _ H)
    as [(Hopen & [= <-] & ->)|(Hopen & ex & rest & Hpend & Hres & ->)].
  - left. now split.
  - right. split; [exact Hopen|]. unfold exchange_result in Hres.
    unfold wire_event. destruct (write_raise ex) eqn:Hw; [discriminate|].
    destruct (await_success _ _ _ _ _ Hres) as (-> & line & now & Hin & Hne & Hs).
    split; [reflexivity|]. exists ex, rest, line, now. repeat split; assumption.
Qed.

(** *** The setup sequence *)

Lemma send_gcode_ack command timeout w r w' :
  ser_is_open w = true ->
  send_gcode decode_ignore command timeout w = Some ((true, r), w') ->
  ser w' = ser w /\ opens w' = opens w /\ log w' = log w ++ [Wire command] /\
  exists ex,
    pending w = ex :: pending w' /\
    exchange_result decode_ignore timeout ex = Some (true, "ok").
Proof.
  intros Hopen H. destruct (send_gcode_cases _ _ _ _ _ H)
    as [(Hc & _)|(_ & ex & rest & Hpend & Hres & ->)]; [congruence|].
  cbn [ser opens log pending]. rewrite Hpend. repeat split.
  - unfold exchange_result in Hres. unfold wire_event.
    now destruct (write_raise ex).
  - exists ex. split; [reflexivity|]. rewrite Hres.
    unfold exchange_result in Hres. destruct (write_raise ex); [discriminate|].
    now destruct (await_success _ _ _ _ _ Hres) as [-> _].
Qed.

Lemma send_gcode_ser command timeout w r w' :
  send_gcode decode_ignore command timeout w = Some (r, w') ->
  ser w' = ser w /\ opens w' = opens w.
Proof.
  intros H. destruct (send_gcode_cases _ _ _ _ _ H)
    as [(_ & _ & ->)|(_ & ex & rest & _ & _ & ->)]; now split.
Qed.

Lemma init_loop_result cmds : forall w b w',
  ser_is_open w = true ->
  init_loop decode_ignore cmds w = Some (b, w') ->
  ser w' = ser w /\ opens w' = opens w /\
  (b = true ->
   log w' = log w ++ map Wire cmds /\
   exists exs,
     pending w = exs ++ pending w' /\ length exs = length cmds /\
     Forall (fun ex => exchange_result decode_ignore (F64.of_Z 5) ex
                       = Some (true, "ok")) exs).
Proof.
  induction cmds as [|c cmds IH]; intros w b w' Hopen; cbn [init_loop].
  - intros [= <- <-]. repeat split; [now rewrite app_nil_r|].
    exists []. repeat split. constructor.
  - unfold bind.
    destruct (send_gcode decode_ignore c (F64.of_Z 5) w) as [[[ok r] w1]|] eqn:Hs;
      [|discriminate].
    cbn [fst]. destruct ok.
    + destruct (send_gcode_ack _ _ _ _ _ Hopen Hs)
        as (Hser & Hop & Hlog & ex & Hpend & Hex).
      intros H. apply IH in H as (Hser' & Hop' & Hb).
      2: { unfold ser_is_open in *. now rewrite Hser. }
      split; [congruence|]. split; [congruence|]. intros Hbt.
      destruct (Hb Hbt) as (Hl & exs & Hp & Hlen & Hall).
      rewrite Hl, Hlog, <- app_assoc. split; [reflexivity|].
      exists (ex :: exs). rewrite Hpend, Hp. cbn [length app].
      split; [reflexivity|]. split; [now rewrite Hlen|].
      now constructor.
    + intros [= <- <-]. destruct (send_gcode_ser _ _ _ _ _ Hs) as [Hser Hop].
      repeat split; try assumption; discriminate.
Qed.

(** X13.  However [init_grbl] ends when a port is configured, it leaves
    no half-prepared port behind: either it returns [True] with the port
    open, and then every setup command has been written to the port, in
    order, and each was answered by [ok]; or it returns [True] with no
    port because opening raised [SerialException], and nothing has been
    sent; or it returns [False] with no port. *)
Theorem X13_init_grbl_outcomes (port : string) (w w' : world) (ok : bool) :
  init_grbl decode_ignore (Some port) w = Some (ok, w') ->
  (ok = true /\ ser w' = Some true /\
   log w' = log w ++ Opened :: map Wire init_commands /\
   exists exs,
     pending w = exs ++ pending w' /\ length exs = length init_commands /\
     Forall (fun ex => exchange_result decode_ignore (F64.of_Z 5) ex
                       = Some (true, "ok")) exs)
  \/ (ok = true /\ ser w' = None /\ log w' = log w /\ pending w' = pending w)
  \/ (ok = false /\ ser w' = None).
Proof.
  unfold init_grbl, bind, next_open.
  destruct (opens w) as [|o rest]; [discriminate|]. destruct o.
  - cbn [set_ser record ser log opens pending].
    set (w1 := mkWorld (Some true) (log w ++ [Opened]) rest (pending w)).
    destruct (init_loop decode_ignore init_commands w1) as [[b w2]|] eqn:Hloop;
      [|discriminate].
    destruct (init_loop_result init_commands w1 b w2 eq_refl Hloop)
      as (Hser & _ & Hb).
    destruct b.
    + intros [= <- <-]. left. destruct (Hb eq_refl) as [Hl Hp].
      split; [reflexivity|]. split; [exact Hser|].
      split; [rewrite Hl; subst w1; cbn [log]; now rewrite <- app_assoc|].
      exact Hp.
    + unfold close_port, record, set_ser, ret. cbn [ser log opens pending].
      intros [= <- <-]. right. right. now split.
  - unfold set_ser, ret. cbn [ser log opens pending].
    intros [= <- <-]. right. left. repeat split.
  - unfold close_port, record, set_ser, ret. cbn [ser log opens pending].
    destruct (ser_is_open _); cbn [ser log opens pending];
      intros [= <- <-]; right; right; now split.
Qed.

(** *** A command that is not acknowledged *)

Lemma send_program_stops gcode_lines : forall success w w',
  send_program decode_ignore success gcode_lines w = Some (false, w') ->
  (success = false /\ program_lines gcode_lines = [] /\ w' = w)
  \/
  (ser_is_open w = true /\ ser w' = ser w /\
   exists done cmd rest,
     program_lines gcode_lines = done ++ cmd :: rest /\
     commands (log w') = commands (log w) ++ done ++ [cmd]).
Proof.
  unfold program_lines.
  induction gcode_lines as [|line lines IH]; intros success w w';
    cbn [send_program map List.filter].
  - intros [= -> <-]. now left.
  - destruct (negb (String.eqb (strip line) "")); [|apply IH].
    unfold bind.
    destruct (send_gcode decode_ignore (strip line) default_timeout w)
      as [[[ok r] w1]|] eqn:Hs; [|discriminate].
    cbn [fst]. pose proof (send_gcode_log _ _ _ _ _ _ Hs) as Hlog.
    destruct (send_gcode_ser _ _ _ _ _ Hs) as [Hser _].
    assert (Hopen : ser_is_open w1 = ser_is_open w)
      by (unfold ser_is_open; now rewrite Hser).
    destruct ok.
    + intros H. right.
      destruct (IH _ _ _ H) as [(Hc & _)|(Ho & Hs' & done & cmd & rest & Hp & Hl)];
        [discriminate|].
      split; [congruence|]. split; [congruence|].
      exists (strip line :: done), cmd, rest. rewrite Hp. split; [reflexivity|].
      rewrite Hl, Hlog, <- !app_assoc. reflexivity.
    + intros [= <-]. right.
      destruct (send_gcode_cases _ _ _ _ _ Hs) as [(_ & [=] & _)|(Ho & _)].
      split; [exact Ho|]. split; [exact Hser|].
      exists [], (strip line), (List.filter (fun l => negb (String.eqb l ""))
                                  (map strip lines)).
      split; [reflexivity|]. exact Hlog.
Qed.

(** X14.  When a command of the program is not acknowledged,
    [on_message] ends there: the commands sent are the program's up to
    and with that command, none of the later ones and no [post_cmd],
    whether or not the text ends with a line break.  This happens on an
    open port only, and the port stays as it was. *)
Theorem X14_unacknowledged_command_ends_message (cfg : config)
    (letters : gmap string Letter) (payload : list Byte.byte) (text : string)
    (w w1 w2 : world) :
  let program :=
    textToGcode text letters (LINE_LENGTH cfg) (LINE_SPACING cfg) (PADDING cfg) in
  decode_strict payload = Some text ->
  connect decode_ignore cfg w = Some (true, w1) ->
  no_letters letters = false ->
  send_program decode_ignore true program w1 = Some (false, w2) ->
  on_message decode_ignore decode_strict cfg letters payload w = Some (tt, w2) /\
  ser_is_open w1 = true /\ ser w2 = ser w1 /\
  exists done cmd rest,
    program = done ++ cmd :: rest /\
    commands (log w2) = commands (log w1) ++ done ++ [cmd].
Proof.
  intros program Hdec Hconn Hletters Hrun.
  assert (Hclean : program_lines program = program).
  { apply program_lines_clean.
    apply (boundary_clean letters (LINE_SPACING cfg) (PADDING cfg)),
          boundary_compile_state. }
  split.
  - unfold on_message. rewrite Hdec.
    assert (Hp : process_text decode_ignore cfg letters text w1 = Some (tt, w2)).
    { unfold process_text. rewrite Hletters. fold program.
      destruct program as [|c p] eqn:Hprog; [discriminate Hrun|].
      unfold bind. now rewrite Hrun. }
    unfold connect in Hconn. destruct (negb (ser_is_open w)).
    + unfold bind. rewrite Hconn. exact Hp.
    + injection Hconn as <-. exact Hp.
  - destruct (send_program_stops _ _ _ _ Hrun)
      as [([=] & _)|(Ho & Hs & done & cmd & rest & Hp & Hl)].
    rewrite Hclean in Hp. split; [exact Ho|]. split; [exact Hs|].
    now exists done, cmd, rest.
Qed.

(** *** Without a port *)

Lemma send_program_console gcode_lines : forall success w,
  ser_is_open w = false ->
  exists b,
    send_program decode_ignore success gcode_lines w
    = Some (b, mkWorld (ser w)
                 (log w ++ map Console (program_lines gcode_lines))
                 (opens w) (pending w)) /\
    (success = true -> b = true).
Proof.
  unfold program_lines.
  induction gcode_lines as [|line lines IH]; intros success w Hopen;
    cbn [send_program map List.filter].
  - exists success. rewrite app_nil_r. destruct w. now split.
  - destruct (negb (String.eqb (strip line) "")); [|now apply IH].
    unfold bind, send_gcode at 1. rewrite Hopen.
    unfold bind, record, ret. cbn [fst].
    set (w1 := mkWorld _ _ _ _).
    destruct (IH true w1 Hopen) as (b & Hb & Ht). rewrite (Ht eq_refl) in Hb.
    exists true. rewrite Hb. subst w1. cbn [ser log opens pending map].
    rewrite <- app_assoc. now split.
Qed.

(** X15.  With no port configured and none open, a message that decodes
    never fails and needs nothing from the controller: its program is
    printed to the console, command for command, followed by [post_cmd]
    unless the text ends with a line break; when the program is empty
    nothing is printed, not even [post_cmd]. *)
Theorem X15_message_without_port (cfg : config) (letters : gmap string Letter)
    (payload : list Byte.byte) (text : string) (w : world) :
  let program :=
    textToGcode text letters (LINE_LENGTH cfg) (LINE_SPACING cfg) (PADDING cfg) in
  decode_strict payload = Some text ->
  SERIAL_PORT cfg = None ->
  ser_is_open w = false ->
  no_letters letters = false ->
  on_message decode_ignore decode_strict cfg letters payload w
  = Some (tt, mkWorld (ser w)
                (log w ++ map Console
                   (match program with
                    | [] => []
                    | _ :: _ =>
                        program ++
                        (if endswith_newline text then [] else [post_cmd])
                    end))
                (opens w) (pending w)).
Proof.
  intros program Hdec Hport Hopen Hletters.
  assert (Hclean : program_lines program = program).
  { apply program_lines_clean.
    apply (boundary_clean letters (LINE_SPACING cfg) (PADDING cfg)),
          boundary_compile_state. }
  unfold on_message. rewrite Hdec, Hopen. cbn [negb].
  unfold bind at 1. rewrite Hport. cbn [init_grbl]. unfold ret at 1.
  unfold process_text. rewrite Hletters. fold program.
  destruct program as [|c p] eqn:Hprog.
  - unfold ret. rewrite app_nil_r. now destruct w.
  - destruct (send_program_console (c :: p) true w Hopen) as (b & Hb & Ht).
    rewrite (Ht eq_refl), Hclean in Hb. unfold bind at 1. rewrite Hb.
    destruct (endswith_newline text); cbn [negb].
    + unfold ret. now rewrite app_nil_r.
    + unfold bind, send_gcode, ser_is_open. cbn [ser].
      fold (ser_is_open w). rewrite Hopen.
      unfold bind, record, ret. cbn [ser log opens pending].
      now rewrite map_app, <- app_assoc.
Qed.

End DriverMore.

Lemma X12_success_means_ok_witness :
  (ser_is_open (world_open [exchange_ok]) = false /\ "ok" = "Printed_to_console" /\
   mkWorld (Some true) [Wire "G21"] [] []
   = mkWorld (ser (world_open [exchange_ok]))
       (log (world_open [exchange_ok]) ++ [Console "G21"])
       (opens (world_open [exchange_ok])) (pending (world_open [exchange_ok])))
  \/
  (ser_is_open (world_open [exchange_ok]) = true /\ "ok" = "ok" /\
   exists ex rest line now,
     pending (world_open [exchange_ok]) = ex :: rest /\
     mkWorld (Some true) [Wire "G21"] [] []
     = mkWorld (ser (world_open [exchange_ok]))
         (log (world_open [exchange_ok]) ++ [Wire "G21"])
         (opens (world_open [exchange_ok])) rest /\
     write_raise ex = None /\
     In (Poll line now) (polls ex) /\
     line <> [] /\ strip (ascii_decode_ignore line) = "ok").
Proof.
  apply (X12_success_means_ok ascii_decode_ignore "G21" default_timeout
           (world_open [exchange_ok]) (mkWorld (Some true) [Wire "G21"] [] []) "ok").
  reflexivity.
Defined.

Lemma X13_init_grbl_outcomes_witness :
  let w' := mkWorld (Some true) (Opened :: map Wire init_commands) [] [] in
  (true = true /\ ser w' = Some true /\
   log w' = log world_ready ++ Opened :: map Wire init_commands /\
   exists exs,
     pending world_ready = exs ++ pending w' /\
     length exs = length init_commands /\
     Forall (fun ex => exchange_result ascii_decode_ignore (F64.of_Z 5) ex
                       = Some (true, "ok")) exs)
  \/ (true = true /\ ser w' = None /\ log w' = log world_ready /\
      pending w' = pending world_ready)
  \/ (true = false /\ ser w' = None).
Proof.
  apply (X13_init_grbl_outcomes ascii_decode_ignore "/dev/ttyUSB0" world_ready
           (mkWorld (Some true) (Opened :: map Wire init_commands) [] []) true).
  reflexivity.
Defined.

Lemma X14_unacknowledged_command_ends_message_witness :
  let w := world_open [exchange_ok; exchange_error; exchange_ok] in
  let w2 := mkWorld (Some true) [Wire "M03 S150"; Wire "G1 F1500.0 X0.00 Y0.00"]
              [] [exchange_ok] in
  let program :=
    textToGcode "A" letters_A (LINE_LENGTH config_port)
      (LINE_SPACING config_port) (PADDING config_port) in
  on_message ascii_decode_ignore ascii_decode_strict config_port letters_A
    (bytes_of "A") w = Some (tt, w2) /\
  ser_is_open w = true /\ ser w2 = ser w /\
  exists done cmd rest,
    program = done ++ cmd :: rest /\
    commands (log w2) = commands (log w) ++ done ++ [cmd].
Proof.
  apply (X14_unacknowledged_command_ends_message ascii_decode_ignore
           ascii_decode_strict config_port letters_A (bytes_of "A") "A"
           (world_open [exchange_ok; exchange_error; exchange_ok])
           (world_open [exchange_ok; exchange_error; exchange_ok])
           (mkWorld (Some true)
              [Wire "M03 S150"; Wire "G1 F1500.0 X0.00 Y0.00"] [] [exchange_ok]));
    reflexivity.
Defined.

Lemma X15_message_without_port_witness :
  on_message ascii_decode_ignore ascii_decode_strict config_bypass letters_A
    (bytes_of "A") world_bypass
  = Some (tt, mkWorld (ser world_bypass)
                (log world_bypass ++ map Console
                   (match textToGcode "A" letters_A (LINE_LENGTH config_bypass)
                            (LINE_SPACING config_bypass) (PADDING config_bypass) with
                    | [] => []
                    | _ :: _ =>
                        textToGcode "A" letters_A (LINE_LENGTH config_bypass)
                          (LINE_SPACING config_bypass) (PADDING config_bypass) ++
                        (if endswith_newline "A" then [] else [post_cmd])
                    end))
                (opens world_bypass) (pending world_bypass)).
Proof.
  apply (X15_message_without_port ascii_decode_ignore ascii_decode_strict
           config_bypass letters_A (bytes_of "A") "A" world_bypass);
    reflexivity.
Defined.

(* ================================================================== *)
(** * The compiler as one pass over the text *)

Lemma fold_lines_text_step letters line_spacing padding s : forall st,
  match split_lines s with
  | [] => st
  | h :: t =>
      fold_left (line_step letters line_spacing padding) t
        (fold_left (char_step letters padding) (list_ascii_of_string h) st)
  end
  = fold_left (text_step letters line_spacing padding)
      (list_ascii_of_string s) st.
Proof.
  unfold split_lines.
  induction s as [|c r IH]; intros st; [reflexivity|].
  cbn [split_on list_ascii_of_string fold_left]. unfold text_step at 2.
  destruct (Ascii.eqb c newline).
  - cbn [list_ascii_of_string fold_left]. rewrite <- IH.
    pose proof (split_lines_nonempty r) as Hne. unfold split_lines in Hne.
    destruct (split_on newline r) as [|h t]; [congruence|].
    reflexivity.
  - rewrite <- IH. destruct (split_on newline r) as [|h t]; reflexivity.
Qed.

Lemma compile_state_pass text letters line_spacing padding :
  compile_state text letters line_spacing padding
  = fold_left (text_step letters line_spacing padding)
      (list_ascii_of_string text) (start_line line_spacing init_state).
Proof.
  rewrite <- fold_lines_text_step. unfold compile_state.
  pose proof (split_lines_nonempty text) as Hne.
  destruct (split_lines text) as [|h t]; [congruence|]. reflexivity.
Qed.

Lemma list_ascii_app a b :
  list_ascii_of_string (a ++ b)
  = list_ascii_of_string a ++ list_ascii_of_string b.
Proof.
  induction a as [|c a IH]; [now rewrite sapp_nil_l|].
  rewrite sapp_cons. cbn [list_ascii_of_string app]. now rewrite IH.
Qed.

Lemma fold_text_step_output letters line_spacing padding cs : forall st,
  exists more,
    output (fold_left (text_step letters line_spacing padding) cs st)
    = output st ++ more.
Proof.
  induction cs as [|c cs IH]; intros st; cbn [fold_left].
  - exists []. now rewrite app_nil_r.
  - destruct (IH (text_step letters line_spacing padding st c)) as [more ->].
    assert (H : exists m, output (text_step letters line_spacing padding st c)
                          = output st ++ m).
    { unfold text_step, char_step. destruct (Ascii.eqb c newline).
      - rewrite start_line_output. eauto.
      - destruct (letters !! String c "") as [ld|].
        + rewrite letter_step_output. eauto.
        + exists []. now rewrite app_nil_r. }
    destruct H as [m ->]. exists (m ++ more). now rewrite app_assoc.
Qed.

(** X16.  The program is made in one pass over the characters of the
    text, so the program of a text that is continued is the program of
    the text followed by more commands: what is added to a text never
    changes the commands already made. *)
Theorem X16_program_of_continued_text (a b : string)
    (letters : gmap string Letter) (line_length line_spacing padding : float) :
  textToGcode (a ++ b) letters line_length line_spacing padding
  = output (fold_left (text_step letters line_spacing padding)
              (list_ascii_of_string b)
              (compile_state a letters line_spacing padding)) /\
  exists more,
    textToGcode (a ++ b) letters line_length line_spacing padding
    = textToGcode a letters line_length line_spacing padding ++ more.
Proof.
  assert (H : textToGcode (a ++ b) letters line_length line_spacing padding
              = output (fold_left (text_step letters line_spacing padding)
                          (list_ascii_of_string b)
                          (compile_state a letters line_spacing padding))).
  { unfold textToGcode.
    rewrite (compile_state_pass (a ++ b)), list_ascii_app, fold_left_app.
    now rewrite <- compile_state_pass. }
  split; [exact H|]. rewrite H. unfold textToGcode.
  apply fold_text_step_output.
Qed.

(* ================================================================== *)
(** * The command word of a template line *)

Lemma rstrip_forall p s :
  string_forall p s = true -> string_forall p (rstrip s) = true.
Proof.
  induction s as [|c s IH]; [reflexivity|]. rewrite rstrip_cons.
  cbn [string_forall]. intros [Hc Hs]%andb_true_iff. specialize (IH Hs).
  destruct (rstrip s) as [|e r].
  - destruct (is_space c); [reflexivity|]. cbn [string_forall]. now rewrite Hc.
  - cbn [string_forall] in *. now rewrite Hc, IH.
Qed.

Lemma Instr_of_line_one_word s :
  string_forall (fun c => negb (Ascii.eqb c " ")) s = true ->
  Instr_of_line s = None.
Proof.
  intros Hs. unfold Instr_of_line.
  assert (H : string_forall (fun c => negb (Ascii.eqb c " ")) (strip s) = true).
  { unfold strip. apply rstrip_forall.
    clear -Hs. induction s as [|c s IH]; [reflexivity|].
    cbn [lstrip]. cbn [string_forall] in Hs.
    apply andb_true_iff in Hs as [Hc Hs].
    destruct (is_space c); [now apply IH|]. cbn [string_forall].
    now rewrite Hc, Hs. }
  rewrite (split_on_whole _ _ H).
  now destruct (_ || _).
Qed.

Lemma strip_command_word a rest :
  strip (String "G" a ++ String " " rest)
  = match rstrip rest with
    | EmptyString => rstrip (String "G" a)
    | String _ _ => (String "G" a ++ String " " (rstrip rest))%string
    end.
Proof.
  unfold strip. rewrite sapp_cons. cbn [lstrip].
  change (is_space "G") with false. cbn iota.
  rewrite <- sapp_cons, rstrip_app, (rstrip_cons " " rest).
  now destruct (rstrip rest).
Qed.

(** X17.  Of the command word of a template line only its first two
    characters are read: whatever follows them up to the first blank
    changes nothing, so a line that starts with G10 is read as a G1
    line and one that starts with G00 as a G0 line. *)
Theorem X17_command_word_by_two_characters (d : ascii) (junk rest : string) :
  string_forall (fun c => negb (Ascii.eqb c " ")) (String d junk) = true ->
  Instr_of_line (String "G" (String d junk) ++ String " " rest)
  = Instr_of_line (String "G" (String d "") ++ String " " rest).
Proof.
  intros Hw.
  assert (Hd : string_forall (fun c => negb (Ascii.eqb c " ")) (String d "") = true).
  { cbn [string_forall] in *. apply andb_true_iff in Hw as [-> _]. reflexivity. }
  assert (Hg : forall a,
    string_forall (fun c => negb (Ascii.eqb c " ")) a = true ->
    string_forall (fun c => negb (Ascii.eqb c " ")) (String "G" a) = true).
  { intros a Ha. cbn [string_forall]. now rewrite Ha. }
  rewrite <- (Instr_of_line_strip (String "G" (String d junk) ++ _)),
          <- (Instr_of_line_strip (String "G" (String d "") ++ _)),
          !strip_command_word.
  destruct (rstrip rest) as [|e r] eqn:Hr.
  - rewrite !Instr_of_line_one_word; auto using rstrip_forall.
  - assert (Hi : rstrip (String e r) = String e r)
      by (rewrite <- Hr; apply rstrip_idem).
    unfold Instr_of_line. rewrite !strip_command_word, Hi.
    rewrite !(split_on_piece " " _ _ (Hg _ Hw)), !(split_on_piece " " _ _ (Hg _ Hd)).
    rewrite !sapp_cons. cbn [String.eqb String.prefix orb].
    destruct (split_on " " (String e r)) as [|a1 [|a2 t]]; reflexivity.
Qed.

Lemma X17_command_word_by_two_characters_witness :
  Instr_of_line (String "G" (String "1" "0") ++ String " " "X1 Y2")
  = Instr_of_line (String "G" (String "1" "") ++ String " " "X1 Y2").
Proof.
  apply (X17_command_word_by_two_characters "1" "0" "X1 Y2"). reflexivity.
Defined.
